(** * OpenWebUI-Monitor: usage charging and monthly balance reset

    A shallow embedding of the charging path ([app/api/v1/outlet/route.ts]),
    the user ledger ([lib/db/users.ts]), the reset scheduler
    ([lib/scheduler]) and the reset route
    ([app/api/v1/users/reset-balances/route.ts]), with the properties the
    specification states about them.

    Conventions of the embedding.
    - A JavaScript number is an exact rational ([Q]) or, where the code only
      handles whole numbers, an integer ([Z]).  [NaN] appears as [None] in
      the results of [parseInt] and [parseFloat], the only places where the
      code tests for it.  Infinite numbers are outside the model.
    - A [DECIMAL(16,4)] column holds an integer number of ten-thousandths.
    - [process.env] and the tables keyed by a primary key are finite maps.
    - A handler runs in a small state-and-exception monad over the store
      session, so that [BEGIN], [COMMIT] and [ROLLBACK] are ordinary
      statements of the handler. *)

From Stdlib Require Import ZArith QArith Qabs Qround Lqa Lia Bool.
From Stdlib Require Import Ascii String List.
From stdpp Require Import base option strings gmap fin_maps.
Import ListNotations.

Local Open Scope string_scope.
Local Open Scope Z_scope.

(* ===================================================================== *)
(** * The JavaScript primitives the code relies on *)
(* ===================================================================== *)

Module Js.

(** [process.env]: a finite map from names to strings. *)
Abbreviation Env := (gmap string string).

(** [process.env.NAME || fallback]: an unset variable is [undefined] and
    an empty one is the empty string; both are falsy. *)
Definition env_or (env : Env) (name fallback : string) : string :=
  match env !! name with
  | Some EmptyString => fallback
  | Some s => s
  | None => fallback
  end.

(** ** Scanning decimal digits *)

Definition is_digit (c : ascii) : bool :=
  let n := Z.of_nat (nat_of_ascii c) in (48 <=? n) && (n <=? 57).

Definition digit_value (c : ascii) : Z := Z.of_nat (nat_of_ascii c) - 48.

(** The white space of [StrWhiteSpaceChar] that fits in one byte: TAB,
    LF, VT, FF, CR and SPACE. *)
Definition is_space (c : ascii) : bool :=
  let n := Z.of_nat (nat_of_ascii c) in
  ((9 <=? n) && (n <=? 13)) || (n =? 32).

Fixpoint skip_spaces (s : string) : string :=
  match s with
  | String c rest => if is_space c then skip_spaces rest else s
  | EmptyString => s
  end.

(** [digits acc n s]: reads the longest run of digits at the head of
    [s]; returns the number read after [acc], how many digits there
    were after [n], and the rest of the string. *)
Fixpoint digits (acc : Z) (n : nat) (s : string) : Z * nat * string :=
  match s with
  | String c rest =>
      if is_digit c then digits (10 * acc + digit_value c) (S n) rest
      else (acc, n, s)
  | EmptyString => (acc, n, s)
  end.

(** An optional sign: the factor and the rest of the string. *)
Definition sign (s : string) : Z * string :=
  match s with
  | String "-" rest => (-1, rest)
  | String "+" rest => (1, rest)
  | _ => (1, s)
  end.

(** [parseInt(s, 10)]: leading white space, an optional sign, then the
    longest run of decimal digits; [NaN] ([None]) when there is no
    digit. *)
Definition parseInt (s : string) : option Z :=
  let '(sg, s1) := sign (skip_spaces s) in
  let '(v, n, _) := digits 0 0 s1 in
  match n with
  | O => None
  | S _ => Some (sg * v)
  end.

(** [Math.min] and [Math.max] on whole numbers: [NaN] is contagious. *)
Definition Math_min (a b : option Z) : option Z :=
  match a, b with
  | Some x, Some y => Some (Z.min x y)
  | _, _ => None
  end.

Definition Math_max (a b : option Z) : option Z :=
  match a, b with
  | Some x, Some y => Some (Z.max x y)
  | _, _ => None
  end.

(** [a > b] and [a < b]: every comparison with [NaN] is false. *)
Definition gt (a b : option Z) : bool :=
  match a, b with
  | Some x, Some y => y <? x
  | _, _ => false
  end.

Definition lt (a b : option Z) : bool :=
  match a, b with
  | Some x, Some y => x <? y
  | _, _ => false
  end.

(** A number in a condition: 0 is falsy, any other number truthy. *)
Definition truthy (n : Z) : bool := negb (n =? 0).

(** ** [parseFloat] *)

(** [10^e] as a rational, for any integer [e]. *)
Definition pow10 (e : Z) : Q :=
  match e with
  | Z0 => 1%Q
  | Zpos p => inject_Z (10 ^ Zpos p)
  | Zneg p => (1 # Pos.pow 10 p)%Q
  end.

(** The exponent part [e[+-]digits] when it is complete, and the rest
    of the string; otherwise the exponent is 0 and nothing is consumed. *)
Definition exponent (s : string) : Z * string :=
  match s with
  | String c rest =>
      if (Ascii.eqb c "e" || Ascii.eqb c "E")%bool then
        let '(sg, s1) := sign rest in
        let '(v, n, s2) := digits 0 0 s1 in
        match n with O => (0, s) | S _ => (sg * v, s2) end
      else (0, s)
  | EmptyString => (0, s)
  end.

(** The longest decimal literal at the head of [s]: an optional sign,
    digits with an optional fraction (or a fraction alone) and an
    optional exponent.  Returns its exact value and the rest of the
    string, or [None] when [s] does not start with one. *)
Definition decimal_literal (s : string) : option (Q * string) :=
  let '(sg, s1) := sign s in
  let '(ip, ni, s2) := digits 0 0 s1 in
  let '(fp, nf, s3) :=
    match s2 with
    | String "." rest => digits 0 0 rest
    | _ => (0, O, s2)
    end in
  match ni, nf with
  | O, O => None
  | _, _ =>
      let mantissa := (inject_Z ip + inject_Z fp * pow10 (- Z.of_nat nf))%Q in
      let '(e, s4) := exponent s3 in
      Some (Qred (inject_Z sg * mantissa * pow10 e), s4)
  end.

(** [parseFloat(s)] on decimal literals: leading white space is
    skipped, the longest literal is read and the rest ignored.  [None]
    is [NaN]: no literal there.  The value is the exact rational, and
    -0 is 0.  The literal [Infinity], which [parseFloat] reads as an
    infinite number, is not among the numbers of this model: [in_range]
    below says on which strings this function is that of JavaScript. *)
Definition parseFloat (s : string) : option Q :=
  fst <$> decimal_literal (skip_spaces s).





(** ** Dates *)

(** A [Date] seen through its local-time getters: [getFullYear()],
    [getMonth()] (0 is January) and [getDate()] (the day of the month). *)
Record Date := mkDate { getFullYear : Z; getMonth : Z; getDate : Z }.

Definition InLeapYear (y : Z) : bool :=
  (y mod 4 =? 0) && (negb (y mod 100 =? 0) || (y mod 400 =? 0)).

(** Days of month [m] (0 is January) of year [y]. *)
Definition DaysInMonth (y m : Z) : Z :=
  match m with
  | 0 | 2 | 4 | 6 | 7 | 9 | 11 => 31
  | 3 | 5 | 8 | 10 => 30
  | 1 => if InLeapYear y then 29 else 28
  | _ => 0
  end.

(** [new Date(year, monthIndex, 0).getDate()].  The constructor reads a
    year from 0 to 99 as 1900 + year, carries a month index outside
    0..11 into the year, and takes day 0 as the day before the first of
    the month: the last day of the month before. *)
Definition lastDateBefore (year monthIndex : Z) : Z :=
  let yr := if (0 <=? year) && (year <=? 99) then 1900 + year else year in
  let months := 12 * yr + monthIndex - 1 in
  DaysInMonth (months / 12) (months mod 12).

(** A reading of the clock, which is what every [new Date()] handed to
    the scheduler is: a year from 1970 on, a month index in 0..11 and a
    day of that month. *)
Definition clock_date (d : Date) : Prop :=
  1970 <= getFullYear d /\
  0 <= getMonth d < 12 /\
  1 <= getDate d <= DaysInMonth (getFullYear d) (getMonth d).

(** [c.repeat(n)]. *)
Fixpoint repeat (c : ascii) (n : nat) : string :=
  match n with
  | O => EmptyString
  | S k => String c (repeat c k)
  end.

(** A number in a condition, for numbers that need not be whole: [!x] is
    true exactly for 0. *)
Definition falsy (x : Q) : bool := Qeq_bool x 0.

End Js.


(* ===================================================================== *)
(** * The store *)
(* ===================================================================== *)

Module Pg.

(** ** [DECIMAL(16,4)] *)

(** A [DECIMAL(16,4)] value is a whole number of ten-thousandths with at
    most sixteen digits. *)
Definition scale : Z := 10000.

Definition fits (units : Z) : bool := Z.abs units <? 10 ^ 16.

(** Rounding of an exact value to four decimals, in ten-thousandths:
    to the nearest, a tie away from zero. *)
Definition round4 (q : Q) : Z :=
  let n := Qnum q * scale in
  let d := Zpos (Qden q) in
  Z.sgn n * ((2 * Z.abs n + d) / (2 * d)).

(** [CAST(x AS DECIMAL(16,4))]: the rounded value, or the error
    "numeric field overflow" ([None]). *)
Definition CAST_DECIMAL_16_4 (q : Q) : option Z :=
  let units := round4 q in
  if fits units then Some units else None.

(** The text of a numeric value sent as a statement parameter: white
    space around one decimal literal; anything else is the error
    "invalid input syntax" ([None]). *)
Definition numeric_in (s : string) : option Q :=
  match Js.decimal_literal (Js.skip_spaces s) with
  | Some (q, rest) =>
      match Js.skip_spaces rest with
      | EmptyString => Some q
      | _ => None
      end
  | None => None
  end.

(** [Number(row.column)] of a [DECIMAL(16,4)] column. *)
Definition Number (units : Z) : Q := (units # 10000)%Q.

(** The literal [999999.9999], as a column value and as a number. *)
Definition MAX_BALANCE : Z := 9999999999.
Definition max_balance : Q := (9999999999 # 10000)%Q.

(** ** Tables *)

(** A row of [users]; its key [id] is the key of the table.  The column
    [created_at] plays no part in what follows. *)
Record User := mkUser {
  email : string;
  name : string;
  role : string;
  balance : Z;
  default_balance : Z;
  deleted : option bool
}.

(** A row of [user_usage_records]. *)
Record UsageRecord := mkUsageRecord {
  user_id : string;
  nickname : string;
  model_name : string;
  input_tokens : Z;
  output_tokens : Z;
  cost : Q;
  balance_after : Q
}.

(** A row of [model_prices], as the driver hands it to the code. *)
Record ModelPrice := mkModelPrice {
  id : string;
  price_name : string;
  input_price : Q;
  output_price : Q;
  per_msg_price : Q
}.

(** The tables.  [system_settings] keeps, under the key
    ["last_balance_reset"], the instant written by [updateLastResetDate];
    the row is held as the [Date] its text denotes. *)
Record DB := mkDB {
  users : gmap string User;
  user_usage_records : list UsageRecord;
  model_prices : gmap string ModelPrice;
  system_settings : gmap string Js.Date
}.

Definition set_users (t : gmap string User) (d : DB) : DB :=
  {| users := t; user_usage_records := user_usage_records d;
     model_prices := model_prices d; system_settings := system_settings d |}.

Definition set_user_usage_records (t : list UsageRecord) (d : DB) : DB :=
  {| users := users d; user_usage_records := t;
     model_prices := model_prices d; system_settings := system_settings d |}.

Definition set_system_settings (t : gmap string Js.Date) (d : DB) : DB :=
  {| users := users d; user_usage_records := user_usage_records d;
     model_prices := model_prices d; system_settings := t |}.

Definition set_balance (b : Z) (u : User) : User :=
  {| email := email u; name := name u; role := role u; balance := b;
     default_balance := default_balance u; deleted := deleted u |}.

(** ** Sessions and transactions *)

(** Modelled from the spec: [query] of [lib/db/client] runs one statement
    against "a transactional relational store" with "transaction
    begin/commit/rollback".  A session holds the tables as its
    statements see them and, while a transaction is open, the tables as
    they were when it began. *)
Record Session := mkSession { db : DB; snapshot : option DB }.

Definition idle (d : DB) : Session := {| db := d; snapshot := None |}.

(** The persisted last-reset instant that a session sees. *)
Definition last_reset (s : Session) : option Js.Date :=
  system_settings (db s) !! "last_balance_reset".

Definition set_db (d : DB) (s : Session) : Session :=
  {| db := d; snapshot := snapshot s |}.

(** What a handler can throw. *)
Inductive Error :=
| PriceNotFound (modelId : string)  (* Fail to fetch price info of model ... *)
| UserDoesNotExist                  (* User does not exist *)
| BalanceExceedsMaximum             (* Balance exceeds maximum allowed value *)
| UserNotFound                      (* User not found *)
| TypeError                         (* a property read on undefined *)
| TokenizerError                    (* thrown by the tokenizer *)
| StatementError.                   (* a statement the store refuses *)

Inductive Outcome (A : Type) :=
| Return (a : A)
| Throw (e : Error).
Arguments Return {A} a.
Arguments Throw {A} e.

(** A computation of a handler. *)
Definition M (A : Type) : Type := Session -> Outcome A * Session.

Definition ret {A} (a : A) : M A := fun s => (Return a, s).

Definition throw {A} (e : Error) : M A := fun s => (Throw e, s).

Definition bind {A B} (m : M A) (k : A -> M B) : M B :=
  fun s =>
    match m s with
    | (Return a, s') => k a s'
    | (Throw e, s') => (Throw e, s')
    end.

(** [try { body } catch (error) { handler }]. *)
Definition try_catch {A} (body : M A) (handler : Error -> M A) : M A :=
  fun s =>
    match body s with
    | (Return a, s') => (Return a, s')
    | (Throw e, s') => handler e s'
    end.

(** A value that may be an error, lifted into a computation. *)
Definition lift {A} (e : Error) (o : option A) : M A :=
  match o with
  | Some a => ret a
  | None => throw e
  end.

(** [query("BEGIN")]: opens a transaction; inside one it only warns. *)
Definition BEGIN : M unit :=
  fun s =>
    (Return tt,
     {| db := db s;
        snapshot := match snapshot s with
                    | Some d0 => Some d0
                    | None => Some (db s)
                    end |}).

(** [query("COMMIT")]. *)
Definition COMMIT : M unit :=
  fun s => (Return tt, {| db := db s; snapshot := None |}).

(** [query("ROLLBACK")]: back to the tables of [BEGIN]; outside a
    transaction it only warns. *)
Definition ROLLBACK : M unit :=
  fun s =>
    (Return tt,
     {| db := match snapshot s with
              | Some d0 => d0
              | None => db s
              end;
        snapshot := None |}).

#[global] Instance M_ret : MRet M := @ret.
#[global] Instance M_bind : MBind M := fun A B k m => bind m k.

Definition get_db : M DB := fun s => (Return (db s), s).

Definition put_db (d : DB) : M unit := fun s => (Return tt, set_db d s).

End Pg.


(* ===================================================================== *)
(** * [lib/db/users.ts] *)
(* ===================================================================== *)

Module Users.
Import Pg.

(** [UPDATE users SET balance = e WHERE id = $1 RETURNING balance], for
    an expression [e] over the row; [id] is the primary key, so at most
    one row is returned.  [e] is [None] when evaluating it is an error. *)
Definition UPDATE_balance_WHERE_id
    (userId : string) (e : User -> option Z) : M (list Z) :=
  fun s =>
    match users (db s) !! userId with
    | None => (Return [], s)
    | Some u =>
        match e u with
        | Some b =>
            (Return [b],
             set_db (set_users (<[userId := set_balance b u]> (users (db s)))
                               (db s)) s)
        | None => (Throw StatementError, s)
        end
    end.

(** The argument of [getOrCreateUser]. *)
Record UserData := mkUserData {
  ud_id : string;
  ud_email : string;
  ud_name : string;
  ud_role : option string
}.

(** [getOrCreateUser]: [INSERT ... VALUES ($1, $2, $3, $4, $5, $5)
    ON CONFLICT (id) DO UPDATE SET email = $2, name = $3 RETURNING *],
    with [$5] the text of [INIT_BALANCE]. *)
Definition getOrCreateUser (env : Js.Env) (userData : UserData) : M User :=
  let initBalance := Js.env_or env "INIT_BALANCE" "0" in
  let role :=
    match ud_role userData with
    | Some EmptyString | None => "user"
    | Some r => r
    end in
  v ← lift StatementError (numeric_in initBalance);
  b ← lift StatementError (CAST_DECIMAL_16_4 v);
  d ← get_db;
  let row :=
    match users d !! ud_id userData with
    | Some u =>
        {| email := ud_email userData; name := ud_name userData;
           role := Pg.role u; balance := balance u;
           default_balance := default_balance u; deleted := deleted u |}
    | None =>
        {| email := ud_email userData; name := ud_name userData;
           role := role; balance := b; default_balance := b;
           deleted := Some false |}
    end in
  put_db (set_users (<[ud_id userData := row]> (users d)) d);;
  mret row.

(** [updateUserBalance]; the schema is taken to be up to date, so that
    [ensureUserTableExists] changes nothing. *)
Definition updateUserBalance (userId : string) (cost : Q) : M Q :=
  if Qlt_le_dec max_balance cost then throw BalanceExceedsMaximum
  else
    c ← lift StatementError (CAST_DECIMAL_16_4 cost);
    rows ← UPDATE_balance_WHERE_id userId
             (fun _ => Some (Z.min c MAX_BALANCE));
    match rows with
    | [] => throw UserNotFound
    | b :: _ => mret (Number b)
    end.

(** A row that [WHERE (deleted = FALSE OR deleted IS NULL)] keeps. *)
Definition not_deleted (u : User) : bool :=
  match deleted u with
  | Some true => false
  | Some false | None => true
  end.

(** [resetAllBalancesToDefault]: the number of rows updated. *)
Definition resetAllBalancesToDefault : M nat :=
  d ← get_db;
  put_db (set_users
            ((fun u => if not_deleted u
                       then set_balance (default_balance u) u else u)
               <$> users d) d);;
  mret (size (filter (fun kv => not_deleted kv.2 = true) (users d))).

(** [resetUserBalanceToDefault]. *)
Definition resetUserBalanceToDefault (userId : string) : M Q :=
  rows ← UPDATE_balance_WHERE_id userId (fun u => Some (default_balance u));
  match rows with
  | [] => throw UserNotFound
  | b :: _ => mret (Number b)
  end.

(** [getLastResetDate]. *)
Definition getLastResetDate : M (option Js.Date) :=
  d ← get_db;
  mret (system_settings d !! "last_balance_reset").

(** [updateLastResetDate]; [now] is [new Date()]. *)
Definition updateLastResetDate (now : Js.Date) : M unit :=
  d ← get_db;
  put_db (set_system_settings
            (<["last_balance_reset" := now]> (system_settings d)) d).

(** [deleteUser]: [UPDATE users SET deleted = TRUE WHERE id = $1]; the
    schema is taken to be up to date ([ensureDeletedColumnExists]). *)
Definition deleteUser (userId : string) : M unit :=
  d ← get_db;
  match users d !! userId with
  | Some u =>
      put_db (set_users
                (<[userId := {| email := email u; name := name u;
                                role := role u; balance := balance u;
                                default_balance := default_balance u;
                                deleted := Some true |}]> (users d)) d)
  | None => mret tt
  end.

(** How [updateUserDefaultBalance] ends: with the stored default balance,
    with the error "Default balance exceeds maximum allowed value", or
    with another error. *)
Inductive DefaultBalanceOutcome :=
| DefaultBalanceSet (default_balance : Q)
| DefaultBalanceExceedsMaximum
| DefaultBalanceThrow (e : Error).

(** [updateUserDefaultBalance]: [UPDATE users SET default_balance =
    LEAST(CAST($2 AS DECIMAL(16,4)), 999999.9999) WHERE id = $1
    RETURNING default_balance], after the test on the argument. *)
Definition updateUserDefaultBalance (userId : string) (defaultBalance : Q)
    (s : Session) : DefaultBalanceOutcome * Session :=
  if Qlt_le_dec max_balance defaultBalance
  then (DefaultBalanceExceedsMaximum, s)
  else
    match CAST_DECIMAL_16_4 defaultBalance with
    | None => (DefaultBalanceThrow StatementError, s)
    | Some c =>
        match users (db s) !! userId with
        | None => (DefaultBalanceThrow UserNotFound, s)
        | Some u =>
            let b := Z.min c MAX_BALANCE in
            (DefaultBalanceSet (Number b),
             set_db (set_users
                       (<[userId := {| email := email u; name := name u;
                                       role := role u; balance := balance u;
                                       default_balance := b;
                                       deleted := deleted u |}]>
                          (users (db s))) (db s)) s)
        end
    end.

End Users.

(* ===================================================================== *)
(** * [lib/scheduler] *)
(* ===================================================================== *)

Module Scheduler.
Import Pg.

(** [getConfiguredResetDay]. *)
Definition getConfiguredResetDay (env : Js.Env) : option Z :=
  let day := Js.parseInt (Js.env_or env "BALANCE_RESET_DAY" "1") in
  Js.Math_min (Js.Math_max day (Some 1)) (Some 31).

(** [isAutoResetEnabled]. *)
Definition isAutoResetEnabled (env : Js.Env) : bool :=
  let day := Js.parseInt (Js.env_or env "BALANCE_RESET_DAY" "1") in
  Js.gt day (Some 0).

(** [getEffectiveResetDay]. *)
Definition getEffectiveResetDay (env : Js.Env) (date : Js.Date) : option Z :=
  let configured := getConfiguredResetDay env in
  let lastDayOfMonth :=
    Js.lastDateBefore (Js.getFullYear date) (Js.getMonth date + 1) in
  Js.Math_min configured (Some lastDayOfMonth).

(** [shouldAutoResetNow]. *)
Definition shouldAutoResetNow (env : Js.Env) (date : Js.Date) : M bool :=
  if negb (isAutoResetEnabled env) then mret false
  else
    let resetDay := getEffectiveResetDay env date in
    let currentDay := Js.getDate date in
    if Js.lt (Some currentDay) resetDay then mret false
    else
      lastReset ← Users.getLastResetDate;
      match lastReset with
      | Some lastReset =>
          let lastResetMonth := Js.getMonth lastReset in
          let lastResetYear := Js.getFullYear lastReset in
          let currentMonth := Js.getMonth date in
          let currentYear := Js.getFullYear date in
          if (lastResetMonth =? currentMonth) && (lastResetYear =? currentYear)
          then mret false
          else mret true
      | None => mret true
      end.

(** [checkAndReset]: one tick of the scheduler at the instant [now]. *)
Definition checkAndReset (env : Js.Env) (now : Js.Date) : M unit :=
  try_catch
    (shouldReset ← shouldAutoResetNow env now;
     if shouldReset : bool then
       _ ← Users.resetAllBalancesToDefault;
       Users.updateLastResetDate now
     else mret tt)
    (fun _ => mret tt).

(** ** The life of the scheduler *)

(** The two variables of the module, [schedulerInterval] and
    [isInitialized], with the interval timers of the process: the handles
    that [setInterval] has given out and [clearInterval] has not taken
    back, and the next handle. *)
Record State := mkState {
  schedulerInterval : option nat;
  isInitialized : bool;
  intervals : gset nat;
  next_handle : nat
}.

(** The module as it is loaded. *)
Definition loaded : State :=
  {| schedulerInterval := None; isInitialized := false;
     intervals := ∅; next_handle := 0%nat |}.

(** [initScheduler]: the new state, and whether [checkAndReset()] was
    called (its work on the store is [checkAndReset] above). *)
Definition initScheduler (env : Js.Env) (st : State) : bool * State :=
  if isInitialized st then (false, st)
  else if negb (isAutoResetEnabled env) then (false, st)
  else
    (true,
     {| schedulerInterval := Some (next_handle st);
        isInitialized := true;
        intervals := {[ next_handle st ]} ∪ intervals st;
        next_handle := S (next_handle st) |}).

(** [stopScheduler]. *)
Definition stopScheduler (st : State) : State :=
  match schedulerInterval st with
  | Some h =>
      {| schedulerInterval := None; isInitialized := false;
         intervals := intervals st ∖ {[ h ]};
         next_handle := next_handle st |}
  | None => st
  end.

(** The answer of [getSchedulerStatus]. *)
Record Status := mkStatus {
  enabled : bool;
  resetDay : option Z;
  effectiveResetDay : option Z;
  isRunning : bool
}.

(** [getSchedulerStatus]; [now] is [new Date()]. *)
Definition getSchedulerStatus (env : Js.Env) (now : Js.Date) (st : State)
    : Status :=
  {| enabled := isAutoResetEnabled env;
     resetDay := getConfiguredResetDay env;
     effectiveResetDay := getEffectiveResetDay env now;
     isRunning := isInitialized st |}.

End Scheduler.

(* ===================================================================== *)
(** * [lib/runtime.ts] *)
(* ===================================================================== *)

Module Runtime.

(** The variable [runtimeInitialized] and the scheduler module. *)
Record State := mkState {
  runtimeInitialized : bool;
  scheduler : Scheduler.State
}.

Definition loaded : State :=
  {| runtimeInitialized := false; scheduler := Scheduler.loaded |}.

(** [ensureRuntimeInitialized]: the new state, and whether
    [checkAndReset()] was called. *)
Definition ensureRuntimeInitialized (env : Js.Env) (rt : State)
    : bool * State :=
  if runtimeInitialized rt then (false, rt)
  else
    let '(called, st) := Scheduler.initScheduler env (scheduler rt) in
    (called, {| runtimeInitialized := true; scheduler := st |}).

(** Someone stops the scheduler ([stopScheduler] is exported). *)
Definition stopScheduler (rt : State) : State :=
  {| runtimeInitialized := runtimeInitialized rt;
     scheduler := Scheduler.stopScheduler (scheduler rt) |}.

End Runtime.

(* ===================================================================== *)
(** * [app/api/v1/users/reset-balances/route.ts] *)
(* ===================================================================== *)

Module ResetBalances.
Import Pg.

(** The JSON body of the request: [{ userId, force }]. *)
Record Body := mkBody { userId : option string; force : bool }.

(** The responses of [POST]. *)
Inductive Response :=
| BalanceReset (userId : string) (new_balance : Q)
| ResetNotNeeded (reset_day effective_reset_day : option Z)
                 (last_reset : option Js.Date)
| BalancesReset (users_affected : nat)
| Failed (e : Error).

(** [POST], once the token is accepted; [now] is [new Date()].  The
    start of the scheduler by [ensureRuntimeInitialized] is the
    scheduler's own activity ([Scheduler.checkAndReset]);
    [Routes.reset_balances_POST] is the request with that call before
    these statements. *)
Definition POST (env : Js.Env) (now : Js.Date) (body : Body) : M Response :=
  try_catch
    (match userId body with
     | Some (String c rest as userId) =>
         newBalance ← Users.resetUserBalanceToDefault userId;
         mret (BalanceReset userId newBalance)
     | Some EmptyString | None =>
         early ←
           (if negb (force body) then
              shouldReset ← Scheduler.shouldAutoResetNow env now;
              if negb shouldReset then
                let resetDay := Scheduler.getConfiguredResetDay env in
                let effectiveResetDay :=
                  Scheduler.getEffectiveResetDay env now in
                lastReset ← Users.getLastResetDate;
                mret (Some (ResetNotNeeded resetDay effectiveResetDay lastReset))
              else mret None
            else mret None);
         match early with
         | Some response => mret response
         | None =>
             count ← Users.resetAllBalancesToDefault;
             Users.updateLastResetDate now;;
             mret (BalancesReset count)
         end
     end)
    (fun error => mret (Failed error)).

(** The responses of [GET]. *)
Inductive GetResponse :=
| ResetStatus (reset_day effective_reset_day : option Z)
              (last_reset : option Js.Date) (should_reset_today : bool)
              (scheduler : Scheduler.Status)
| GetFailed (e : Error).

(** [GET], once the token is accepted and after
    [ensureRuntimeInitialized()]; [now] is [new Date()] and [st] the
    state of the scheduler module.  [Routes.reset_balances_GET] is the
    request with that call before these statements. *)
Definition GET (env : Js.Env) (now : Js.Date) (st : Scheduler.State)
    : M GetResponse :=
  try_catch
    (let resetDay := Scheduler.getConfiguredResetDay env in
     let effectiveResetDay := Scheduler.getEffectiveResetDay env now in
     lastReset ← Users.getLastResetDate;
     shouldReset ← Scheduler.shouldAutoResetNow env now;
     let schedulerStatus := Scheduler.getSchedulerStatus env now st in
     mret (ResetStatus resetDay effectiveResetDay lastReset shouldReset
             schedulerStatus))
    (fun error => mret (GetFailed error)).

End ResetBalances.

(* ===================================================================== *)
(** * The route that resets the balance of the user [params.id] *)
(* ===================================================================== *)

Module ResetUserBalance.
Import Pg.

(** The responses of [POST], by status. *)
Inductive Response :=
| UserIdRequired400
| UserNotFound404
| BalanceReset200 (user : Q)
| Failed500.

(** [POST], once the token is accepted. *)
Definition POST (id : string) : M Response :=
  try_catch
    (let userId := id in
     match userId with
     | EmptyString => mret UserIdRequired400
     | String _ _ =>
         result ← Users.resetUserBalanceToDefault userId;
         if Js.falsy result then mret UserNotFound404
         else mret (BalanceReset200 result)
     end)
    (fun _ => mret Failed500).

End ResetUserBalance.

(* ===================================================================== *)
(** * [app/api/v1/users/[id]/default-balance/route.ts] *)
(* ===================================================================== *)

Module DefaultBalance.
Import Pg.

(** The value of [default_balance] in the JSON body: a number, or
    anything else (absent, a string, null, ...). *)
Inductive Json :=
| JNumber (x : Q)
| JOther.

(** The responses of [PUT]: the stored default balance, status 400, or
    status 500 with the message of the error. *)
Inductive Response :=
| DefaultBalanceUpdated (default_balance : Q)
| MustBeANumber400
| ExceedsMaximum500
| Failed500 (e : Error).

(** [PUT], once the token is accepted. *)
Definition PUT (id : string) (default_balance : Json) (s : Session)
    : Response * Session :=
  let userId := id in
  match default_balance with
  | JOther => (MustBeANumber400, s)
  | JNumber x =>
      match Users.updateUserDefaultBalance userId x s with
      | (Users.DefaultBalanceSet newDefaultBalance, s') =>
          (DefaultBalanceUpdated newDefaultBalance, s')
      | (Users.DefaultBalanceExceedsMaximum, s') => (ExceedsMaximum500, s')
      | (Users.DefaultBalanceThrow e, s') => (Failed500 e, s')
      end
  end.

End DefaultBalance.

(* ===================================================================== *)
(** * [app/api/v1/outlet/route.ts] *)
(* ===================================================================== *)

Module Outlet.
Import Pg.

(** [usage] of a message: the counts the upstream provider reported,
    each of which may be missing. *)
Record Usage := mkUsage {
  prompt_tokens : option Z;
  completion_tokens : option Z
}.

(** A message; [content] is a string, as [interface Message] declares,
    so that [msg.content?.length || 0] is its length. *)
Record Message := mkMessage {
  role : string;
  content : string;
  usage : option Usage
}.

(** The JSON of the request: [data.body.model], [data.body.messages],
    [data.user.id] and [data.user.name]. *)
Record Data := mkData {
  model : string;
  messages : list Message;
  user_id : string;
  user_name : option string
}.

Inductive TokenSource := LLM_USAGE | ESTIMATION | TOKENIZER.

(** The responses of [POST]: the success payload, or the payload of
    status 500. *)
Inductive Response :=
| Success (inputTokens outputTokens : Z) (totalCost newBalance : Q)
| Failure (error : Error).

Definition CHAR_LIMIT_FOR_ESTIMATION : Z := 50000.
Definition CHARS_PER_TOKEN : Z := 4.

(** [getModelPrice]. *)
Definition getModelPrice (env : Js.Env) (modelId : string)
    : M (option ModelPrice) :=
  d ← get_db;
  match model_prices d !! modelId with
  | Some row => mret (Some row)
  | None =>
      let defaultInputPrice :=
        Js.parseFloat (Js.env_or env "DEFAULT_MODEL_INPUT_PRICE" "60") in
      let defaultOutputPrice :=
        Js.parseFloat (Js.env_or env "DEFAULT_MODEL_OUTPUT_PRICE" "60") in
      match defaultInputPrice, defaultOutputPrice with
      | Some i, Some o =>
          if Qlt_le_dec i 0 then mret None
          else if Qlt_le_dec o 0 then mret None
          else mret (Some {| id := modelId; price_name := modelId;
                             input_price := i; output_price := o;
                             per_msg_price := (-1)%Q |})
      | _, _ => mret None
      end
  end.

(** [data.user.name || "Unknown User"]. *)
Definition userName (data : Data) : string :=
  match user_name data with
  | Some EmptyString | None => "Unknown User"
  | Some n => n
  end.

(** [array.reduce(f, init)] for a step that may throw. *)
Fixpoint reduce {A B} (f : B -> A -> M B) (init : B) (l : list A) : M B :=
  match l with
  | [] => mret init
  | x :: rest => acc ← f init x; reduce f acc rest
  end.

(** [totalCost] of lines 137 to 150. *)
Definition totalCost (modelPrice : ModelPrice) (inputTokens outputTokens : Z)
    : Q :=
  if outputTokens =? 0 then 0%Q
  else if Qle_bool 0 (per_msg_price modelPrice) then per_msg_price modelPrice
  else
    let inputCost :=
      (inject_Z inputTokens / 1000000 * input_price modelPrice)%Q in
    let outputCost :=
      (inject_Z outputTokens / 1000000 * output_price modelPrice)%Q in
    (inputCost + outputCost)%Q.

(** [LEAST(balance - c, 999999.9999)] stored in the column [balance]: an
    error when the result does not fit the column. *)
Definition LEAST_decrement (c : Z) (u : User) : option Z :=
  let b := Z.min (balance u - c) MAX_BALANCE in
  if fits b then Some b else None.

(** The row a charge writes to [user_usage_records]. *)
Definition usage_record (data : Data) (inputTokens outputTokens : Z)
    (totalCost newBalance : Q) : UsageRecord :=
  {| Pg.user_id := user_id data; nickname := userName data;
     model_name := model data;
     input_tokens := inputTokens; output_tokens := outputTokens;
     cost := totalCost; balance_after := newBalance |}.

(** The tables after a charge that took the account of [u] to [b] and
    wrote the row [r]. *)
Definition charged (data : Data) (u : User) (b : Z) (r : UsageRecord)
    (d : DB) : DB :=
  set_user_usage_records (user_usage_records d ++ [r])
    (set_users (<[user_id data := set_balance b u]> (users d)) d).

Section Collaborators.

(** [encode] of gpt-tokenizer: the tokens of a text, or [None] when it
    throws. *)
Variable encode : string -> option (list Z).

(** [getModelInletCost] of [lib/utils/inlet-cost]. *)
Variable getModelInletCost : string -> Q.

(** Whether the table [user_usage_records], whose definition is not
    among these sources, accepts a row. *)
Variable accepts : UsageRecord -> bool.

(** [encode(text).length]. *)
Definition encode_length (text : string) : M Z :=
  tokens ← lift TokenizerError (encode text);
  mret (Z.of_nat (List.length tokens)).

(** Lines 87 to 135: the token counts and where they come from. *)
Definition countTokens (messages : list Message) (lastMessage : Message)
    : M (Z * Z * TokenSource) :=
  let reported :=
    match usage lastMessage with
    | Some u =>
        match prompt_tokens u, completion_tokens u with
        | Some p, Some c =>
            if Js.truthy p && Js.truthy c then Some (p, c) else None
        | _, _ => None
        end
    | None => None
    end in
  match reported with
  | Some (p, c) => mret (p, c, LLM_USAGE)
  | None =>
      let totalChars :=
        fold_left (fun sum msg => sum + Z.of_nat (String.length (content msg)))
                  messages 0 in
      let outputChars := Z.of_nat (String.length (content lastMessage)) in
      if CHAR_LIMIT_FOR_ESTIMATION <? totalChars then
        let totalTokens :=
          Qceiling (inject_Z totalChars / inject_Z CHARS_PER_TOKEN) in
        let outputTokens :=
          Qceiling (inject_Z outputChars / inject_Z CHARS_PER_TOKEN) in
        let inputTokens := totalTokens - outputTokens in
        mret (inputTokens, outputTokens, ESTIMATION)
      else
        outputTokens ← encode_length (content lastMessage);
        totalTokens ←
          reduce (fun sum msg =>
                    n ← encode_length (content msg); mret (sum + n))
                 0 messages;
        let inputTokens := totalTokens - outputTokens in
        mret (inputTokens, outputTokens, TOKENIZER)
  end.

(** [INSERT INTO user_usage_records ... VALUES ($1, ..., $7)]. *)
Definition INSERT_usage_record (r : UsageRecord) : M unit :=
  if accepts r then
    d ← get_db;
    put_db (set_user_usage_records (user_usage_records d ++ [r]) d)
  else throw StatementError.

(** [POST], from the parsed request on: taking a connection, starting
    the scheduler ([ensureRuntimeInitialized]) and releasing the
    connection are left out.  [Routes.outlet_POST] is the request with
    that call before these statements. *)
Definition POST (env : Js.Env) (data : Data) : M Response :=
  try_catch
    (let modelId := model data in
     let userId := user_id data in
     let userName := userName data in
     BEGIN;;
     modelPrice ← getModelPrice env modelId;
     match modelPrice with
     | None => throw (PriceNotFound modelId)
     | Some modelPrice =>
         lastMessage ← lift TypeError (last (messages data));
         '(inputTokens, outputTokens, tokenSource) ←
           countTokens (messages data) lastMessage;
         let totalCost := totalCost modelPrice inputTokens outputTokens in
         let inletCost := getModelInletCost modelId in
         let actualCost := (totalCost - inletCost)%Q in
         c ← lift StatementError (CAST_DECIMAL_16_4 actualCost);
         userResult ← Users.UPDATE_balance_WHERE_id userId (LEAST_decrement c);
         match userResult with
         | [] => throw UserDoesNotExist
         | b :: _ =>
             let newBalance := Number b in
             if Qlt_le_dec max_balance newBalance
             then throw BalanceExceedsMaximum
             else
               INSERT_usage_record
                 {| Pg.user_id := userId; nickname := userName;
                    model_name := modelId;
                    input_tokens := inputTokens;
                    output_tokens := outputTokens;
                    cost := totalCost; balance_after := newBalance |};;
               COMMIT;;
               mret (Success inputTokens outputTokens totalCost newBalance)
         end
     end)
    (fun error => ROLLBACK;; mret (Failure error)).

End Collaborators.

End Outlet.

(* ===================================================================== *)
(** * The requests from the first statement of their handlers *)
(* ===================================================================== *)

Module Routes.
Import Pg.

(** A request as its route runs it.  The handlers of [outlet] and of
    [reset-balances] call [ensureRuntimeInitialized()] before anything
    else.  When that call starts the scheduler, [checkAndReset()] is
    called and not awaited: its statements on the store
    ([Scheduler.checkAndReset]) run between those of the handler, in an
    order that the code does not fix.  [tick] says whether the request
    has set off such a run, [runtime] is the state of the runtime after
    the call, and [handler] holds the statements of the handler itself. *)
Record Request (A : Type) := mkRequest {
  tick : bool;
  runtime : Runtime.State;
  handler : M A
}.

Arguments mkRequest {A}.
Arguments tick {A}.
Arguments runtime {A}.
Arguments handler {A}.

(** [GET] of [reset-balances], once the token is accepted;
    [getSchedulerStatus()] reads the scheduler after the call. *)
Definition reset_balances_GET (env : Js.Env) (now : Js.Date)
    (rt : Runtime.State) : Request ResetBalances.GetResponse :=
  let '(called, rt') := Runtime.ensureRuntimeInitialized env rt in
  {| tick := called; runtime := rt';
     handler := ResetBalances.GET env now (Runtime.scheduler rt') |}.

(** [POST] of [reset-balances], once the token is accepted. *)
Definition reset_balances_POST (env : Js.Env) (now : Js.Date)
    (body : ResetBalances.Body) (rt : Runtime.State)
    : Request ResetBalances.Response :=
  let '(called, rt') := Runtime.ensureRuntimeInitialized env rt in
  {| tick := called; runtime := rt';
     handler := ResetBalances.POST env now body |}.

Section Collaborators.

Variable encode : string -> option (list Z).
Variable getModelInletCost : string -> Q.
Variable accepts : Pg.UsageRecord -> bool.

(** [POST] of [outlet]. *)
Definition outlet_POST (env : Js.Env) (data : Outlet.Data)
    (rt : Runtime.State) : Request Outlet.Response :=
  let '(called, rt') := Runtime.ensureRuntimeInitialized env rt in
  {| tick := called; runtime := rt';
     handler := Outlet.POST encode getModelInletCost accepts env data |}.

End Collaborators.

(** A process that has served a request: its runtime after one call of
    [ensureRuntimeInitialized()]. *)
Definition served (env : Js.Env) : Runtime.State :=
  (Runtime.ensureRuntimeInitialized env Runtime.loaded).2.

End Routes.

(* ===================================================================== *)
(** * Reference definitions, from the words of the specification *)
(* ===================================================================== *)

Module Reference.
Import Pg.

(** ** The cost of a charge *)

(** The three rules of the cost calculator, in their order: no output, no
    cost; else a per-message price of at least 0 is the cost; else the
    cost is per token, the prices being per million tokens. *)
Inductive total_cost_rule (price : ModelPrice) (input_tokens output_tokens : Z)
    : Q -> Prop :=
| cost_no_output :
    output_tokens = 0 ->
    total_cost_rule price input_tokens output_tokens 0%Q
| cost_per_message :
    output_tokens <> 0 ->
    (0 <= per_msg_price price)%Q ->
    total_cost_rule price input_tokens output_tokens (per_msg_price price)
| cost_per_token :
    output_tokens <> 0 ->
    (per_msg_price price < 0)%Q ->
    total_cost_rule price input_tokens output_tokens
      (inject_Z input_tokens / 1000000 * input_price price
       + inject_Z output_tokens / 1000000 * output_price price)%Q.

(** ** The token counts of a usage event *)

(** The counts a message reports: both present and neither of them 0. *)
Definition reported_counts (m : Outlet.Message) : option (Z * Z) :=
  u ← Outlet.usage m;
  p ← Outlet.prompt_tokens u;
  c ← Outlet.completion_tokens u;
  if decide (p <> 0 /\ c <> 0) then Some (p, c) else None.

Definition chars (m : Outlet.Message) : Z :=
  Z.of_nat (String.length (Outlet.content m)).

(** The aggregate character length of the messages. *)
Definition aggregate_chars (ms : list Outlet.Message) : Z :=
  foldr (fun m total => chars m + total) 0 ms.

(** A character count divided by 4, rounded up. *)
Definition estimated_tokens (n : Z) : Z := (n + 3) / 4.

Section Tokenizer.

Variable encode : string -> option (list Z).

(** The exact token count of a text; [None] when the tokenizer throws. *)
Definition exact_tokens (text : string) : option Z :=
  tokens ← encode text; Some (Z.of_nat (List.length tokens)).

(** The exact token count of all the messages together. *)
Definition exact_total (ms : list Outlet.Message) : option Z :=
  counts ← mapM (fun m => exact_tokens (Outlet.content m)) ms;
  Some (foldr Z.add 0 counts).

(** The three-way precedence: reported counts, else an estimate above
    50,000 characters, else the tokenizer, which may throw. *)
Inductive token_counts_rule (ms : list Outlet.Message) (last : Outlet.Message)
    : Outcome (Z * Z * Outlet.TokenSource) -> Prop :=
| counts_reported p c :
    reported_counts last = Some (p, c) ->
    token_counts_rule ms last (Return (p, c, Outlet.LLM_USAGE))
| counts_estimated :
    reported_counts last = None ->
    50000 < aggregate_chars ms ->
    let total := estimated_tokens (aggregate_chars ms) in
    let output := estimated_tokens (chars last) in
    token_counts_rule ms last (Return (total - output, output, Outlet.ESTIMATION))
| counts_tokenized total output :
    reported_counts last = None ->
    aggregate_chars ms <= 50000 ->
    exact_total ms = Some total ->
    exact_tokens (Outlet.content last) = Some output ->
    token_counts_rule ms last (Return (total - output, output, Outlet.TOKENIZER))
| counts_tokenizer_throws :
    reported_counts last = None ->
    aggregate_chars ms <= 50000 ->
    exact_total ms = None \/ exact_tokens (Outlet.content last) = None ->
    token_counts_rule ms last (Throw TokenizerError).

End Tokenizer.

(** ** Resetting one account *)

(** What a reset of the account [userId] leaves of a session [s] in the
    session [s']: the settings (with the last-reset instant), the usage
    records, the prices, the open transaction and every other account. *)
Definition only_account_touched (userId : string) (s s' : Session) : Prop :=
  system_settings (db s') = system_settings (db s)
  /\ user_usage_records (db s') = user_usage_records (db s)
  /\ model_prices (db s') = model_prices (db s)
  /\ snapshot s' = snapshot s
  /\ (forall other : string,
        other <> userId -> users (db s') !! other = users (db s) !! other).

End Reference.

(* ===================================================================== *)
(** * Sample data *)
(* ===================================================================== *)

Module Samples.
Import Pg.

(** A tokenizer for the examples: one token per character. *)
Definition char_tokens (text : string) : option (list Z) :=
  Some (map (fun c => Z.of_nat (nat_of_ascii c)) (list_ascii_of_string text)).

(** A tokenizer that always throws. *)
Definition no_tokens (text : string) : option (list Z) := None.

Definition no_credit (modelId : string) : Q := 0%Q.
Definition credit_of_one (modelId : string) : Q := 1%Q.
Definition tiny_credit (modelId : string) : Q := (1 # 100000)%Q.

Definition any_row (r : UsageRecord) : bool := true.
Definition no_row (r : UsageRecord) : bool := false.

Definition ann (units : Z) : User :=
  {| email := "ann@example.org"; name := "Ann"; role := "user";
     balance := units; default_balance := 50000; deleted := Some false |}.

Definition bob : User :=
  {| email := "bob@example.org"; name := "Bob"; role := "user";
     balance := 12345; default_balance := 70000; deleted := None |}.

(** Per-token prices 2 and 6 per million for ["m"]; ["free"] costs 0 per
    message. *)
Definition prices : gmap string ModelPrice :=
  {[ "m" := {| id := "m"; price_name := "M"; input_price := 2;
               output_price := 6; per_msg_price := (-1)%Q |};
     "free" := {| id := "free"; price_name := "Free"; input_price := 0;
                  output_price := 0; per_msg_price := 0 |} ]}.

(** Ann with the given balance, and Bob. *)
Definition tables (units : Z) : DB :=
  {| users := {[ "ann" := ann units; "bob" := bob ]};
     user_usage_records := [];
     model_prices := prices;
     system_settings := ∅ |}.

Definition reset_on (d : Js.Date) (t : DB) : DB :=
  set_system_settings {[ "last_balance_reset" := d ]} t.

Definition reply (text : string) (p c : option Z) : Outlet.Message :=
  {| Outlet.role := "assistant"; Outlet.content := text;
     Outlet.usage := Some {| Outlet.prompt_tokens := p;
                             Outlet.completion_tokens := c |} |}.

Definition question (text : string) : Outlet.Message :=
  {| Outlet.role := "user"; Outlet.content := text; Outlet.usage := None |}.

Definition request (modelId : string) (ms : list Outlet.Message)
    : Outlet.Data :=
  {| Outlet.model := modelId; Outlet.messages := ms;
     Outlet.user_id := "ann"; Outlet.user_name := Some "Ann" |}.

Definition reset_day_31 : Js.Env := {[ "BALANCE_RESET_DAY" := "31" ]}.

(** The example of the specification: 1000 input and 500 output tokens
    reported for the model ["m"]. *)
Definition priced_request : Outlet.Data :=
  request "m" [reply "hi" (Some 1000) (Some 500)].

(** A reply on the free model. *)
Definition free_request : Outlet.Data :=
  request "free" [reply "ok" (Some 5) (Some 7)].

(** A reply whose usage reports 12 prompt tokens and 0 completion tokens,
    after a question of five characters. *)
Definition empty_reply : Outlet.Message := reply EmptyString (Some 12) (Some 0).
Definition empty_exchange : list Outlet.Message :=
  [question "hello"; empty_reply].

(** One message of 50,001 characters, without usage. *)
Definition long_question : Outlet.Message :=
  question (Js.repeat "a" (Z.to_nat 50001)).

Definition carol : Users.UserData :=
  {| Users.ud_id := "carol"; Users.ud_email := "carol@example.org";
     Users.ud_name := "Carol"; Users.ud_role := None |}.

Definition init_balance_5000000 : Js.Env := {[ "INIT_BALANCE" := "5000000" ]}.
Definition negative_input_price : Js.Env :=
  {[ "DEFAULT_MODEL_INPUT_PRICE" := "-1" ]}.

End Samples.

(* ===================================================================== *)
(** * Views of the store and of the scheduler, for the statements below *)
(* ===================================================================== *)

Module Views.
Import Pg.

(** An account after a bulk reset: at its default balance unless it is
    deleted. *)
Definition at_default (u : User) : User :=
  if Users.not_deleted u then set_balance (default_balance u) u else u.

(** The tables after a bulk reset. *)
Definition all_reset (d : DB) : DB := set_users (at_default <$> users d) d.

(** The tables with [now] written as the last-reset instant. *)
Definition stamped (now : Js.Date) (d : DB) : DB :=
  set_system_settings (<["last_balance_reset" := now]> (system_settings d)) d.

(** Two dates of the same calendar month. *)
Definition same_month (a b : Js.Date) : Prop :=
  Js.getMonth a = Js.getMonth b /\ Js.getFullYear a = Js.getFullYear b.

(** An account with the flag [deleted] set. *)
Definition marked_deleted (u : User) : User :=
  {| email := email u; name := name u; role := role u; balance := balance u;
     default_balance := default_balance u; deleted := Some true |}.

(** An account with another default balance. *)
Definition with_default (b : Z) (u : User) : User :=
  {| email := email u; name := name u; role := role u; balance := balance u;
     default_balance := b; deleted := deleted u |}.

(** The tables with the account [userId] replaced. *)
Definition with_user (userId : string) (u : User) (d : DB) : DB :=
  set_users (<[userId := u]> (users d)) d.

(** What a change of one account leaves of the tables. *)
Definition only_user_changed (userId : string) (d d' : DB) : Prop :=
  system_settings d' = system_settings d
  /\ user_usage_records d' = user_usage_records d
  /\ model_prices d' = model_prices d
  /\ (forall other : string,
        other <> userId -> users d' !! other = users d !! other).

(** The calls made on the scheduler module. *)
Inductive Call := Init | Stop.

Definition call (env : Js.Env) (c : Call) (st : Scheduler.State)
    : Scheduler.State :=
  match c with
  | Init => (Scheduler.initScheduler env st).2
  | Stop => Scheduler.stopScheduler st
  end.

(** The state after a sequence of calls, the first call first. *)
Definition calls (env : Js.Env) (cs : list Call) (st : Scheduler.State)
    : Scheduler.State :=
  fold_left (fun st c => call env c st) cs st.

(** The scheduler is running on exactly its own timer, or is stopped
    without any. *)
Definition consistent (st : Scheduler.State) : Prop :=
  match Scheduler.schedulerInterval st with
  | Some h =>
      Scheduler.isInitialized st = true /\ Scheduler.intervals st = {[ h ]}
  | None =>
      Scheduler.isInitialized st = false /\ Scheduler.intervals st = ∅
  end.

End Views.

(* ===================================================================== *)
(** * More sample data *)
(* ===================================================================== *)

Module MoreSamples.
Import Pg.

(** A model at 12 per message. *)
Definition dear_price : ModelPrice :=
  {| id := "dear"; price_name := "Dear"; input_price := 0;
     output_price := 0; per_msg_price := 12 |}.

(** Ann, deleted, with a balance of 10.0000. *)
Definition shop : DB :=
  {| users := {[ "ann" := Views.marked_deleted (Samples.ann 100000) ]};
     user_usage_records := [];
     model_prices := {[ "dear" := dear_price ]};
     system_settings := ∅ |}.

Definition dear_request : Outlet.Data :=
  Samples.request "dear" [Samples.reply "ok" (Some 5) (Some 7)].

(** Zed, whose default balance is 0. *)
Definition zed : User :=
  {| email := "zed@example.org"; name := "Zed"; role := "user";
     balance := 4200; default_balance := 0; deleted := Some false |}.

Definition club : DB :=
  {| users := {[ "zed" := zed ]}; user_usage_records := [];
     model_prices := ∅; system_settings := ∅ |}.

End MoreSamples.

(* ===================================================================== *)
(** * The reset scheduler *)
(* ===================================================================== *)

Module SchedulerProperties.
Import Pg Scheduler.

(** Closes [Js.clock_date d] for a given date [d]. *)
Ltac clock := vm_compute; repeat split; discriminate.

Lemma lastDateBefore_next_month y m :
  100 <= y -> 0 <= m < 12 ->
  Js.lastDateBefore y (m + 1) = Js.DaysInMonth y m.
Proof.
  intros Hy Hm. unfold Js.lastDateBefore.
  replace ((0 <=? y) && (y <=? 99)) with false
    by (symmetry; apply andb_false_iff; right; apply Z.leb_gt; lia).
  replace (12 * y + (m + 1) - 1) with (m + y * 12) by lia.
  rewrite Z.div_add, Z.mod_add by lia.
  rewrite Z.div_small, Z.mod_small by lia. reflexivity.
Qed.

Lemma DaysInMonth_le_31 y m : Js.DaysInMonth y m <= 31.
Proof.
  unfold Js.DaysInMonth.
  repeat (match goal with
          | |- context [match ?x with _ => _ end] => destruct x
          end; try lia).
Qed.

(** C7. For every clock date, [getEffectiveResetDay] is the minimum of
    the configured reset day and the number of days of the date's
    month; with the configured day 31 it is therefore the last day of
    the month: 28 in a February of 28 days, 30 in April, 31 in a month of
    31 days. *)
Theorem effective_reset_day_is_min (env : Js.Env) (date : Js.Date) :
  Js.clock_date date ->
  getEffectiveResetDay env date
  = Js.Math_min (getConfiguredResetDay env)
      (Some (Js.DaysInMonth (Js.getFullYear date) (Js.getMonth date)))
  /\ (forall n : Z,
        getConfiguredResetDay env = Some 31 ->
        Js.DaysInMonth (Js.getFullYear date) (Js.getMonth date) = n ->
        getEffectiveResetDay env date = Some n).
Proof.
  intros (Hy & Hm & _).
  assert (getEffectiveResetDay env date
          = Js.Math_min (getConfiguredResetDay env)
              (Some (Js.DaysInMonth (Js.getFullYear date) (Js.getMonth date))))
    as Heq.
  { unfold getEffectiveResetDay.
    rewrite lastDateBefore_next_month by lia. reflexivity. }
  split; [exact Heq |].
  intros n Hc Hn. rewrite Heq, Hc, Hn. cbn. f_equal.
  pose proof (DaysInMonth_le_31 (Js.getFullYear date) (Js.getMonth date)). lia.
Qed.

Lemma effective_reset_day_is_min_witness :
  getEffectiveResetDay Samples.reset_day_31 (Js.mkDate 2023 1 14) = Some 28
  /\ getEffectiveResetDay Samples.reset_day_31 (Js.mkDate 2023 3 30) = Some 30
  /\ getEffectiveResetDay Samples.reset_day_31 (Js.mkDate 2023 6 4) = Some 31.
Proof.
  split; [| split].
  - apply (effective_reset_day_is_min Samples.reset_day_31 (Js.mkDate 2023 1 14));
      [clock | reflexivity | reflexivity].
  - apply (effective_reset_day_is_min Samples.reset_day_31 (Js.mkDate 2023 3 30));
      [clock | reflexivity | reflexivity].
  - apply (effective_reset_day_is_min Samples.reset_day_31 (Js.mkDate 2023 6 4));
      [clock | reflexivity | reflexivity].
Defined.

Lemma configured_day_one env :
  Js.parseInt (Js.env_or env "BALANCE_RESET_DAY" "1") = Some 1 ->
  isAutoResetEnabled env = true /\ getConfiguredResetDay env = Some 1.
Proof.
  intros H. unfold isAutoResetEnabled, getConfiguredResetDay.
  rewrite H. split; reflexivity.
Qed.

Lemma shouldAutoResetNow_on_or_after env date s (b : bool) :
  isAutoResetEnabled env = true ->
  Js.lt (Some (Js.getDate date)) (getEffectiveResetDay env date) = false ->
  match last_reset s with
  | Some r =>
      (Js.getMonth r =? Js.getMonth date)
      && (Js.getFullYear r =? Js.getFullYear date)
  | None => false
  end = negb b ->
  shouldAutoResetNow env date s = (Return b, s).
Proof.
  intros Hen Hday Hlast. unfold shouldAutoResetNow.
  rewrite Hen, Hday. cbn [negb].
  cbv beta iota zeta delta
    [Users.getLastResetDate mbind M_bind bind mret M_ret ret get_db].
  unfold last_reset in Hlast.
  destruct (system_settings (db s) !! "last_balance_reset") as [r |].
  - rewrite Hlast. destruct b; reflexivity.
  - destruct b; [reflexivity | discriminate].
Qed.

(** C4. [shouldAutoResetNow] answers, without touching the store: false
    when auto-reset is disabled; false when the day of the month is
    before the effective reset day; false when the persisted last reset
    lies in the month and year of the date; true otherwise.  Catch-up:
    with the reset day set to 1 and a last reset two months back, it
    answers true on every day of the month. *)
Theorem should_reset_now_cases (env : Js.Env) (date : Js.Date) (s : Session) :
  (isAutoResetEnabled env = false ->
   shouldAutoResetNow env date s = (Return false, s))
  /\ (forall e : Z,
        getEffectiveResetDay env date = Some e -> Js.getDate date < e ->
        shouldAutoResetNow env date s = (Return false, s))
  /\ (forall r : Js.Date,
        last_reset s = Some r ->
        Js.getMonth r = Js.getMonth date ->
        Js.getFullYear r = Js.getFullYear date ->
        shouldAutoResetNow env date s = (Return false, s))
  /\ (isAutoResetEnabled env = true ->
      (forall e : Z,
          getEffectiveResetDay env date = Some e -> e <= Js.getDate date) ->
      (forall r : Js.Date,
          last_reset s = Some r ->
          ~ (Js.getMonth r = Js.getMonth date
             /\ Js.getFullYear r = Js.getFullYear date)) ->
      shouldAutoResetNow env date s = (Return true, s))
  /\ (forall r : Js.Date,
        Js.parseInt (Js.env_or env "BALANCE_RESET_DAY" "1") = Some 1 ->
        last_reset s = Some r ->
        12 * Js.getFullYear r + Js.getMonth r
        = 12 * Js.getFullYear date + Js.getMonth date - 2 ->
        1 <= Js.getDate date ->
        shouldAutoResetNow env date s = (Return true, s)).
Proof.
  pose proof (shouldAutoResetNow_on_or_after env date s) as Hlate.
  split; [| split; [| split; [| split]]].
  - intros Hoff. unfold shouldAutoResetNow. rewrite Hoff. reflexivity.
  - intros e He Hlt. unfold shouldAutoResetNow.
    destruct (isAutoResetEnabled env); [| reflexivity]. cbn [negb].
    rewrite He. cbn [Js.lt].
    replace (Js.getDate date <? e) with true by (symmetry; apply Z.ltb_lt; lia).
    reflexivity.
  - intros r Hr Hm Hy.
    destruct (isAutoResetEnabled env) eqn:Hen;
      [| unfold shouldAutoResetNow; rewrite Hen; reflexivity].
    destruct (Js.lt (Some (Js.getDate date)) (getEffectiveResetDay env date))
      eqn:Hday;
      [unfold shouldAutoResetNow; rewrite Hen, Hday; reflexivity |].
    apply (Hlate false eq_refl eq_refl). rewrite Hr, Hm, Hy, !Z.eqb_refl. reflexivity.
  - intros Hen Hday Hnot. apply (Hlate true Hen).
    + destruct (getEffectiveResetDay env date) as [e |]; [| reflexivity].
      cbn [Js.lt]. apply Z.ltb_ge, Hday. reflexivity.
    + destruct (last_reset s) as [r |] eqn:Hr; [| reflexivity].
      cbn [negb]. apply andb_false_iff.
      destruct (Z.eqb_spec (Js.getMonth r) (Js.getMonth date)) as [Hm |];
        [| left; reflexivity].
      destruct (Z.eqb_spec (Js.getFullYear r) (Js.getFullYear date)) as [Hy |];
        [| right; reflexivity].
      destruct (Hnot r eq_refl (conj Hm Hy)).
  - intros r Hone Hr Htwo Hd.
    destruct (configured_day_one env Hone) as [Hen Hconf].
    apply (Hlate true Hen).
    + unfold getEffectiveResetDay. rewrite Hconf. cbn [Js.Math_min Js.lt].
      apply Z.ltb_ge. lia.
    + rewrite Hr. cbn [negb]. apply andb_false_iff.
      destruct (Z.eqb_spec (Js.getMonth r) (Js.getMonth date)) as [Hm |];
        [| left; reflexivity].
      right. apply Z.eqb_neq. lia.
Qed.

(** Last reset on 1 January 2024, reset day unset (so 1): on 17 March
    2024 a reset is due. *)
Lemma should_reset_now_cases_witness :
  shouldAutoResetNow ∅ (Js.mkDate 2024 2 17)
    (idle (Samples.reset_on (Js.mkDate 2024 0 1) (Samples.tables 0)))
  = (Return true,
     idle (Samples.reset_on (Js.mkDate 2024 0 1) (Samples.tables 0))).
Proof.
  apply (should_reset_now_cases ∅ (Js.mkDate 2024 2 17)
           (idle (Samples.reset_on (Js.mkDate 2024 0 1) (Samples.tables 0))))
    with (r := Js.mkDate 2024 0 1).
  - reflexivity.
  - reflexivity.
  - reflexivity.
  - cbn. lia.
Defined.

End SchedulerProperties.

(* ===================================================================== *)
(** * Resetting one account *)
(* ===================================================================== *)

Module ResetProperties.
Import Pg.

Lemma resetUserBalanceToDefault_run userId s :
  Users.resetUserBalanceToDefault userId s
  = match users (db s) !! userId with
    | Some u =>
        (Return (Number (default_balance u)),
         set_db (set_users
                   (<[userId := set_balance (default_balance u) u]>
                      (users (db s))) (db s)) s)
    | None => (Throw UserNotFound, s)
    end.
Proof.
  cbv beta iota zeta delta
    [Users.resetUserBalanceToDefault Users.UPDATE_balance_WHERE_id
     mbind M_bind bind mret M_ret ret throw].
  destruct (users (db s) !! userId); reflexivity.
Qed.

Lemma POST_one_run env now userId f s :
  userId <> EmptyString ->
  ResetBalances.POST env now
    {| ResetBalances.userId := Some userId; ResetBalances.force := f |} s
  = match users (db s) !! userId with
    | Some u =>
        (Return (ResetBalances.BalanceReset userId (Number (default_balance u))),
         set_db (set_users
                   (<[userId := set_balance (default_balance u) u]>
                      (users (db s))) (db s)) s)
    | None => (Return (ResetBalances.Failed UserNotFound), s)
    end.
Proof.
  intros Hne. destruct userId as [| c rest]; [congruence |].
  unfold ResetBalances.POST, try_catch. cbn [ResetBalances.userId].
  unfold mbind at 1, M_bind at 1, bind at 1.
  rewrite resetUserBalanceToDefault_run.
  destruct (users (db s) !! String c rest); reflexivity.
Qed.

Lemma only_account_touched_refl userId s : Reference.only_account_touched userId s s.
Proof. repeat split. Qed.

Lemma only_account_touched_insert userId u s :
  Reference.only_account_touched userId s
    (set_db (set_users (<[userId := u]> (users (db s))) (db s)) s).
Proof.
  repeat split. intros other Hne. cbn. rewrite lookup_insert_ne; congruence.
Qed.

(** C8. A reset of one account, by [resetUserBalanceToDefault] or by the
    route when the request names a user, sets the balance of that account
    to its default balance and returns it; the last-reset instant and
    the balance of every other account stay as they were.  Naming an
    unknown user changes nothing. *)
Theorem reset_one_touches_one_account (userId : string) (s : Session) :
  (Reference.only_account_touched userId s (Users.resetUserBalanceToDefault userId s).2
   /\ last_reset (Users.resetUserBalanceToDefault userId s).2 = last_reset s
   /\ match users (db s) !! userId with
      | Some u =>
          (Users.resetUserBalanceToDefault userId s).1
          = Return (Number (default_balance u))
          /\ users (db (Users.resetUserBalanceToDefault userId s).2) !! userId
             = Some (set_balance (default_balance u) u)
      | None =>
          Users.resetUserBalanceToDefault userId s = (Throw UserNotFound, s)
      end)
  /\ (userId <> EmptyString ->
      forall (env : Js.Env) (now : Js.Date) (f : bool),
        let request :=
          {| ResetBalances.userId := Some userId;
             ResetBalances.force := f |} in
        Reference.only_account_touched userId s (ResetBalances.POST env now request s).2
        /\ last_reset (ResetBalances.POST env now request s).2 = last_reset s
        /\ match users (db s) !! userId with
           | Some u =>
               (ResetBalances.POST env now request s).1
               = Return (ResetBalances.BalanceReset userId
                           (Number (default_balance u)))
               /\ users (db (ResetBalances.POST env now request s).2) !! userId
                  = Some (set_balance (default_balance u) u)
           | None =>
               ResetBalances.POST env now request s
               = (Return (ResetBalances.Failed UserNotFound), s)
           end).
Proof.
  split.
  - rewrite resetUserBalanceToDefault_run.
    destruct (users (db s) !! userId) as [u |] eqn:Hu; cbn [fst snd].
    + split; [apply only_account_touched_insert |].
      split; [reflexivity |]. split; [reflexivity |].
      cbn. apply lookup_insert_eq.
    + split; [apply only_account_touched_refl |]. split; reflexivity.
  - intros Hne env now f request. subst request.
    rewrite POST_one_run by exact Hne.
    destruct (users (db s) !! userId) as [u |] eqn:Hu; cbn [fst snd].
    + split; [apply only_account_touched_insert |].
      split; [reflexivity |]. split; [reflexivity |].
      cbn. apply lookup_insert_eq.
    + split; [apply only_account_touched_refl |]. split; reflexivity.
Qed.

(** Ann is reset to her default of 5.0000 while a last reset is on
    record; Bob keeps his 1.2345. *)
Lemma reset_one_touches_one_account_witness :
  let s := idle (Samples.reset_on (Js.mkDate 2024 0 1) (Samples.tables 31)) in
  let s' :=
    (ResetBalances.POST ∅ (Js.mkDate 2024 0 20)
       {| ResetBalances.userId := Some "ann"; ResetBalances.force := true |}
       s).2 in
  "ann" <> EmptyString
  /\ last_reset s' = Some (Js.mkDate 2024 0 1)
  /\ users (db s') !! "bob" = Some Samples.bob.
Proof.
  intros s s'.
  assert ("ann" <> EmptyString) as Hne by discriminate.
  split; [exact Hne |].
  destruct (proj2 (reset_one_touches_one_account "ann" s) Hne ∅
              (Js.mkDate 2024 0 20) true)
    as ((_ & _ & _ & _ & Hothers) & Hlast & _).
  split.
  - exact Hlast.
  - fold s' in Hothers. rewrite Hothers by discriminate. reflexivity.
Defined.

End ResetProperties.

(* ===================================================================== *)
(** * Charging *)
(* ===================================================================== *)

Module ChargeProperties.
Import Pg.

(** Unfolds the plumbing of a handler. *)
Ltac run :=
  cbv beta iota zeta delta
    [mbind M_bind bind mret M_ret ret throw lift BEGIN COMMIT ROLLBACK
     get_db put_db set_db idle];
  cbn [db snapshot].

Lemma Number_le_max b :
  (b <= MAX_BALANCE)%Z -> (Number b <= max_balance)%Q.
Proof.
  intros Hb. unfold Number, max_balance, MAX_BALANCE, Qle in *. cbn. lia.
Qed.

Lemma getModelPrice_reads env modelId s :
  exists r, Outlet.getModelPrice env modelId s = (Return r, s).
Proof.
  unfold Outlet.getModelPrice. run.
  destruct (model_prices (db s) !! modelId); [eauto |].
  destruct (Js.parseFloat _) as [i|]; [| eauto].
  destruct (Js.parseFloat _) as [o|]; [| eauto].
  destruct (Qlt_le_dec i 0); [eauto |].
  destruct (Qlt_le_dec o 0); eauto.
Qed.

(** ** Rounding to four decimals *)

Lemma round4_error (q : Q) :
  let n := Qnum q * scale in
  let d := Zpos (Qden q) in
  - d <= 2 * (round4 q * d - n) <= d.
Proof.
  cbn zeta. unfold round4.
  set (n := Qnum q * scale). set (d := Zpos (Qden q)).
  assert (0 < d) as Hd by (subst d; lia).
  pose proof (Z.div_mod (2 * Z.abs n + d) (2 * d) ltac:(lia)) as Hdiv.
  pose proof (Z.mod_pos_bound (2 * Z.abs n + d) (2 * d) ltac:(lia)) as Hmod.
  set (k := (2 * Z.abs n + d) / (2 * d)) in *.
  destruct (Z.sgn_spec n) as [(Hn & ->) | [(Hn & ->) | (Hn & ->)]].
  - rewrite Z.abs_eq in * by lia. nia.
  - rewrite <- Hn in *. cbn in *. lia.
  - rewrite Z.abs_neq in * by lia. nia.
Qed.

Lemma Number_round4_close (q : Q) :
  (q - (1 # 20000) <= Number (round4 q) <= q + (1 # 20000))%Q.
Proof.
  pose proof (round4_error q) as H. cbn zeta in H.
  destruct q as [a b]. unfold scale in H. cbn [Qnum Qden] in H.
  unfold Number, Qle, Qminus, Qplus, Qopp. cbn [Qnum Qden].
  rewrite !Pos2Z.inj_mul. split; nia.
Qed.

Lemma Number_minus (a b : Z) :
  (Number a - Number b == Number (a - b))%Q.
Proof.
  unfold Number, Qeq, Qminus, Qplus, Qopp. cbn [Qnum Qden].
  rewrite !Pos2Z.inj_mul. lia.
Qed.

Lemma CAST_is_round4 q c :
  CAST_DECIMAL_16_4 q = Some c -> c = round4 q.
Proof.
  unfold CAST_DECIMAL_16_4. cbn zeta. destruct (fits _); congruence.
Qed.

Section Collaborators.

Variable encode : string -> option (list Z).
Variable getModelInletCost : string -> Q.
Variable accepts : UsageRecord -> bool.

Local Abbreviation encode_length := (Outlet.encode_length encode).
Local Abbreviation countTokens := (Outlet.countTokens encode).
Local Abbreviation POST := (Outlet.POST encode getModelInletCost accepts).

(** ** The steps of a charge that only read *)

Lemma encode_length_run text s :
  encode_length text s
  = match Reference.exact_tokens encode text with
    | Some n => (Return n, s)
    | None => (Throw TokenizerError, s)
    end.
Proof.
  unfold Outlet.encode_length, Reference.exact_tokens. run.
  destruct (encode text); reflexivity.
Qed.

Lemma reduce_encode_run ms acc s :
  Outlet.reduce
    (fun sum msg => n ← encode_length (Outlet.content msg); mret (sum + n))
    acc ms s
  = match Reference.exact_total encode ms with
    | Some total => (Return (acc + total), s)
    | None => (Throw TokenizerError, s)
    end.
Proof.
  unfold Reference.exact_total.
  revert acc. induction ms as [| m ms IH]; intros acc; cbn [Outlet.reduce mapM].
  - cbn. rewrite Z.add_0_r. reflexivity.
  - unfold mbind at 1, M_bind at 1, bind at 1.
    unfold mbind at 1, M_bind at 1, bind at 1.
    rewrite encode_length_run.
    destruct (Reference.exact_tokens encode (Outlet.content m)) as [n |];
      [| reflexivity].
    unfold mret at 1, M_ret at 1, ret at 1. rewrite IH. cbn.
    destruct (mapM _ ms) as [counts |]; cbn; [| reflexivity].
    rewrite Z.add_assoc. reflexivity.
Qed.

Lemma reported_counts_eq (lm : Outlet.Message) :
  match Outlet.usage lm with
  | Some u =>
      match Outlet.prompt_tokens u, Outlet.completion_tokens u with
      | Some p, Some c =>
          if Js.truthy p && Js.truthy c then Some (p, c) else None
      | _, _ => None
      end
  | None => None
  end = Reference.reported_counts lm.
Proof.
  unfold Reference.reported_counts.
  destruct (Outlet.usage lm) as [u |]; [| reflexivity]. cbn.
  destruct (Outlet.prompt_tokens u) as [p |]; [| reflexivity]. cbn.
  destruct (Outlet.completion_tokens u) as [c |]; [| reflexivity]. cbn.
  unfold Js.truthy.
  destruct (Z.eqb_spec p 0), (Z.eqb_spec c 0), (decide (p <> 0 /\ c <> 0));
    cbn; try reflexivity; tauto.
Qed.

Lemma totalChars_eq (ms : list Outlet.Message) (acc : Z) :
  fold_left (fun sum msg => sum + Z.of_nat (String.length (Outlet.content msg)))
            ms acc
  = acc + Reference.aggregate_chars ms.
Proof.
  revert acc. induction ms as [| m ms IH]; intros acc; cbn [fold_left].
  - cbn. lia.
  - rewrite IH. unfold Reference.aggregate_chars at 2. cbn [foldr].
    fold (Reference.aggregate_chars ms). unfold Reference.chars. lia.
Qed.

Lemma ceil_quarter (n : Z) :
  Qceiling (inject_Z n / inject_Z Outlet.CHARS_PER_TOKEN)
  = Reference.estimated_tokens n.
Proof.
  unfold Reference.estimated_tokens, Qceiling, Qfloor, Outlet.CHARS_PER_TOKEN.
  cbn. change (Z.pos (1 * 4)) with 4. rewrite Z.mul_1_r.
  pose proof (Z.div_mod (- n) 4 ltac:(lia)).
  pose proof (Z.mod_pos_bound (- n) 4 ltac:(lia)).
  pose proof (Z.div_mod (n + 3) 4 ltac:(lia)).
  pose proof (Z.mod_pos_bound (n + 3) 4 ltac:(lia)).
  lia.
Qed.

Lemma countTokens_run
    (ms : list Outlet.Message) (lm : Outlet.Message) (s : Session) :
  exists r,
    countTokens ms lm s = (r, s)
    /\ Reference.token_counts_rule encode ms lm r.
Proof.
  unfold Outlet.countTokens. rewrite reported_counts_eq.
  destruct (Reference.reported_counts lm) as [[p c] |] eqn:Hrep.
  { eexists. split; [reflexivity |]. constructor. exact Hrep. }
  rewrite totalChars_eq, Z.add_0_l.
  destruct (Z.ltb_spec Outlet.CHAR_LIMIT_FOR_ESTIMATION
              (Reference.aggregate_chars ms)) as [Hbig | Hsmall].
  { eexists. split; [reflexivity |]. rewrite !ceil_quarter.
    apply Reference.counts_estimated; assumption. }
  unfold mbind at 1, M_bind at 1, bind at 1. rewrite encode_length_run.
  destruct (Reference.exact_tokens encode (Outlet.content lm)) as [out |] eqn:Hout.
  2:{ eexists. split; [reflexivity |].
      apply Reference.counts_tokenizer_throws; auto. }
  unfold mbind at 1, M_bind at 1, bind at 1. rewrite reduce_encode_run.
  destruct (Reference.exact_total encode ms) as [total |] eqn:Htotal.
  - eexists. split; [reflexivity |]. rewrite Z.add_0_l.
    apply Reference.counts_tokenized; assumption.
  - eexists. split; [reflexivity |].
    apply Reference.counts_tokenizer_throws; auto.
Qed.

(** C2. The token counts follow a three-way precedence.  When the usage
    of the last message has a prompt count and a completion count that are
    both present and not 0, they are taken as they are (source
    LLM_USAGE).  Otherwise, when the messages have more than 50,000
    characters in all, the total and the output are the character counts
    divided by 4 and rounded up, and the input is their difference
    (ESTIMATION).  Otherwise the tokenizer counts every message for the
    total and the last one for the output, the input being the difference
    (TOKENIZER); if it throws, so does the count.  The store is only
    read. *)
Theorem token_counts_follow_precedence
    (ms : list Outlet.Message) (lm : Outlet.Message) (s : Session) :
  exists r,
    countTokens ms lm s = (r, s)
    /\ Reference.token_counts_rule encode ms lm r.
Proof. exact (countTokens_run ms lm s). Qed.

(** ** The two ways a charge ends *)

(** Started outside a transaction, [POST] either fails, with the tables
    as they were and with an error other than the overflow one, or goes
    through every step and commits. *)
Lemma POST_outcome env data d :
  (exists e, e <> BalanceExceedsMaximum /\
             POST env data (idle d) = (Return (Outlet.Failure e), idle d))
  \/
  (exists p lm i o src u c,
      let s0 := {| db := d; snapshot := Some d |} in
      let t := Outlet.totalCost p i o in
      let b := Z.min (balance u - c) MAX_BALANCE in
      let r := Outlet.usage_record data i o t (Number b) in
      Outlet.getModelPrice env (Outlet.model data) s0 = (Return (Some p), s0) /\
      last (Outlet.messages data) = Some lm /\
      countTokens (Outlet.messages data) lm s0 = (Return (i, o, src), s0) /\
      CAST_DECIMAL_16_4 (t - getModelInletCost (Outlet.model data)) = Some c /\
      users d !! Outlet.user_id data = Some u /\
      fits b = true /\
      accepts r = true /\
      POST env data (idle d)
      = (Return (Outlet.Success i o t (Number b)),
         idle (Outlet.charged data u b r d))).
Proof.
  unfold Outlet.POST, try_catch, Outlet.INSERT_usage_record,
    Users.UPDATE_balance_WHERE_id, Outlet.LEAST_decrement.
  run.
  set (s0 := {| db := d; snapshot := Some d |}).
  destruct (getModelPrice_reads env (Outlet.model data) s0) as [mp Hmp].
  rewrite Hmp.
  destruct mp as [p |]; [| left; eexists; split; [| reflexivity]; discriminate].
  destruct (last (Outlet.messages data)) as [lm |] eqn:Hlast;
    [| left; eexists; split; [| reflexivity]; discriminate].
  destruct (countTokens_run (Outlet.messages data) lm s0) as (r & Hcount & Hrule).
  rewrite Hcount.
  destruct r as [[[i o] src] | e].
  2:{ left. exists e. split; [| reflexivity]. inversion Hrule. discriminate. }
  destruct (CAST_DECIMAL_16_4 _) as [c |] eqn:Hc;
    [| left; eexists; split; [| reflexivity]; discriminate].
  cbn [db s0].
  destruct (users d !! Outlet.user_id data) as [u |] eqn:Hu;
    [| left; eexists; split; [| reflexivity]; discriminate].
  destruct (fits (Z.min (balance u - c) MAX_BALANCE)) eqn:Hfits;
    [| left; eexists; split; [| reflexivity]; discriminate].
  destruct (Qlt_le_dec max_balance (Number (Z.min (balance u - c) MAX_BALANCE)))
    as [Hover | _].
  { exfalso. apply (Qlt_not_le _ _ Hover), Number_le_max, Z.le_min_r. }
  fold (Outlet.usage_record data i o (Outlet.totalCost p i o)
          (Number (Z.min (balance u - c) MAX_BALANCE))).
  destruct (accepts _) eqn:Hacc;
    [| left; eexists; split; [| reflexivity]; discriminate].
  right. exists p, lm, i, o, src, u, c. cbn zeta.
  repeat (split; [assumption || reflexivity |]).
  reflexivity.
Qed.

(** A charge that succeeded went through every step. *)
Lemma POST_success env data d i o t nb s' :
  POST env data (idle d) = (Return (Outlet.Success i o t nb), s') ->
  exists p lm src u c,
    let s0 := {| db := d; snapshot := Some d |} in
    let b := Z.min (balance u - c) MAX_BALANCE in
    let r := Outlet.usage_record data i o t nb in
    Outlet.getModelPrice env (Outlet.model data) s0 = (Return (Some p), s0) /\
    last (Outlet.messages data) = Some lm /\
    countTokens (Outlet.messages data) lm s0 = (Return (i, o, src), s0) /\
    t = Outlet.totalCost p i o /\
    CAST_DECIMAL_16_4 (t - getModelInletCost (Outlet.model data)) = Some c /\
    users d !! Outlet.user_id data = Some u /\
    nb = Number b /\
    s' = idle (Outlet.charged data u b r d).
Proof.
  intros Hrun.
  destruct (POST_outcome env data d)
    as [(e & _ & Hfail)
       | (p & lm & i' & o' & src & u & c & Hp & Hl & Hc & Hcast & Hu & _ & _ & Hok)];
    cbn zeta in *.
  - rewrite Hfail in Hrun. discriminate.
  - rewrite Hok in Hrun. injection Hrun as <- <- <- <- <-.
    exists p, lm, src, u, c. cbn zeta. repeat (split; [assumption || reflexivity |]).
    reflexivity.
Qed.

Lemma totalCost_rule p i o :
  Reference.total_cost_rule p i o (Outlet.totalCost p i o).
Proof.
  unfold Outlet.totalCost.
  destruct (Z.eqb_spec o 0) as [Ho | Ho]; [constructor; exact Ho |].
  destruct (Qle_bool 0 (per_msg_price p)) eqn:Hfixed.
  - apply Reference.cost_per_message; [exact Ho |]. apply Qle_bool_iff, Hfixed.
  - apply Reference.cost_per_token; [exact Ho |].
    apply Qnot_le_lt. intros Hle. apply Qle_bool_iff in Hle. congruence.
Qed.

Lemma total_cost_rule_unique p i o t :
  Reference.total_cost_rule p i o t -> t = Outlet.totalCost p i o.
Proof.
  intros Hrule. unfold Outlet.totalCost.
  destruct Hrule as [Ho | Ho Hfixed | Ho Htoken].
  - rewrite Ho. reflexivity.
  - apply Z.eqb_neq in Ho. rewrite Ho.
    apply Qle_bool_iff in Hfixed. rewrite Hfixed. reflexivity.
  - apply Z.eqb_neq in Ho. rewrite Ho.
    destruct (Qle_bool 0 (per_msg_price p)) eqn:Hfixed; [| reflexivity].
    apply Qle_bool_iff in Hfixed. destruct (Qlt_not_le _ _ Htoken Hfixed).
Qed.

(** C1. The total cost of a charge is the one the three rules give, taken
    in order: 0 when there are no output tokens, whatever the price
    record; else the per-message price when it is at least 0, whatever the
    token counts; else input_tokens / 1,000,000 * input_price +
    output_tokens / 1,000,000 * output_price.  This is the cost every
    committed charge reports and records. *)
Theorem total_cost_follows_three_rules :
  (forall (p : ModelPrice) (i o : Z),
      Reference.total_cost_rule p i o (Outlet.totalCost p i o))
  /\ (forall (p : ModelPrice) (i o : Z) (t : Q),
         Reference.total_cost_rule p i o t -> t = Outlet.totalCost p i o)
  /\ (forall env data d i o t nb s',
         POST env data (idle d) = (Return (Outlet.Success i o t nb), s') ->
         exists p,
           Outlet.getModelPrice env (Outlet.model data)
             {| db := d; snapshot := Some d |}
           = (Return (Some p), {| db := d; snapshot := Some d |})
           /\ Reference.total_cost_rule p i o t
           /\ exists r, last (user_usage_records (db s')) = Some r
                        /\ cost r = t).
Proof.
  split; [exact totalCost_rule |]. split; [exact total_cost_rule_unique |].
  intros env data d i o t nb s' Hrun.
  destruct (POST_success _ _ _ _ _ _ _ _ Hrun)
    as (p & lm & src & u & c & Hp & _ & _ & Ht & _ & _ & _ & Hs').
  cbn zeta in *. exists p. split; [exact Hp |].
  split; [rewrite Ht; apply totalCost_rule |].
  exists (Outlet.usage_record data i o t nb). subst s'. cbn.
  split; [apply last_snoc | reflexivity].
Qed.

(** C3. A charge is all or nothing.  When it fails, at whatever step
    (no price, no last message, a tokenizer exception, a statement the
    store refuses, no such user), the transaction is rolled back before
    the answer: the tables are those of before the request, so no usage
    record was added and no balance changed.  When it succeeds, the
    transaction is committed with exactly one usage record more, the one
    of this charge.  The handler itself never throws. *)
Theorem charge_is_atomic (env : Js.Env) (data : Outlet.Data) (d : DB) :
  match POST env data (idle d) with
  | (Return (Outlet.Failure e), s') =>
      snapshot s' = None /\ db s' = d
      /\ user_usage_records (db s') = user_usage_records d
      /\ users (db s') = users d
  | (Return (Outlet.Success i o t nb), s') =>
      snapshot s' = None
      /\ user_usage_records (db s')
         = (user_usage_records d ++ [Outlet.usage_record data i o t nb])%list
  | (Throw _, _) => False
  end.
Proof.
  destruct (POST_outcome env data d)
    as [(e & _ & Hfail)
       | (p & lm & i & o & src & u & c & _ & _ & _ & _ & _ & _ & _ & Hok)];
    cbn zeta in *.
  - rewrite Hfail. cbn. repeat split.
  - rewrite Hok. cbn. split; reflexivity.
Qed.

Lemma LEAST_decrement_le_max c u b :
  Outlet.LEAST_decrement c u = Some b -> b <= MAX_BALANCE.
Proof.
  unfold Outlet.LEAST_decrement. cbn zeta.
  destruct (fits _); [| discriminate].
  intros [= <-]. apply Z.le_min_r.
Qed.

(** C9. The balance that the decrement returns is at most 999999.9999,
    because the statement itself caps it with [LEAST]; so the check
    [newBalance > 999999.9999] that follows never fires: no charge ends
    with the error "Balance exceeds maximum allowed value". *)
Theorem overflow_check_is_unreachable
    (env : Js.Env) (data : Outlet.Data) (d : DB) :
  (forall (userId : string) (c : Z) (s s' : Session) (rows : list Z) (b : Z),
      Users.UPDATE_balance_WHERE_id userId (Outlet.LEAST_decrement c) s
      = (Return rows, s') ->
      b ∈ rows ->
      (Number b <= max_balance)%Q
      /\ (if Qlt_le_dec max_balance (Number b) then false else true) = true)
  /\ (POST env data (idle d)).1 <> Return (Outlet.Failure BalanceExceedsMaximum).
Proof.
  split.
  - intros userId c s s' rows b Hrun Hb.
    assert (Number b <= max_balance)%Q as Hle.
    { unfold Users.UPDATE_balance_WHERE_id in Hrun.
      destruct (users (db s) !! userId) as [u |].
      - destruct (Outlet.LEAST_decrement c u) as [b' |] eqn:Hdec; [| discriminate].
        injection Hrun as <- _. apply list_elem_of_singleton in Hb. subst b'.
        apply Number_le_max. eapply LEAST_decrement_le_max, Hdec.
      - injection Hrun as <- _. inversion Hb. }
    split; [exact Hle |].
    destruct (Qlt_le_dec max_balance (Number b)) as [Hover |]; [| reflexivity].
    destruct (Qlt_not_le _ _ Hover Hle).
  - destruct (POST_outcome env data d)
      as [(e & Hne & Hfail)
         | (p & lm & i & o & src & u & c & _ & _ & _ & _ & _ & _ & _ & Hok)];
      cbn zeta in *.
    + rewrite Hfail. cbn. congruence.
    + rewrite Hok. cbn. discriminate.
Qed.

(** C10. A committed charge records the gross total cost, while the
    balance goes to [LEAST(balance - c, 999999.9999)], where [c] is the net
    cost, the total cost less the inlet credit, rounded to four decimals.
    So when the cap does not bind and the inlet credit is more than
    0.00005 in absolute value, the recorded cost is not the change of the
    balance. *)
Theorem recorded_cost_is_gross env data d i o t nb s' :
  POST env data (idle d) = (Return (Outlet.Success i o t nb), s') ->
  exists (u : User) (c : Z),
    users d !! Outlet.user_id data = Some u
    /\ c = round4 (t - getModelInletCost (Outlet.model data))
    /\ (exists r, last (user_usage_records (db s')) = Some r /\ cost r = t)
    /\ users (db s') !! Outlet.user_id data
       = Some (set_balance (Z.min (balance u - c) MAX_BALANCE) u)
    /\ nb = Number (Z.min (balance u - c) MAX_BALANCE)
    /\ (balance u - c <= MAX_BALANCE ->
        (1 # 20000 < Qabs (getModelInletCost (Outlet.model data)))%Q ->
        ~ (Number (balance u) - nb == t)%Q).
Proof.
  intros Hrun.
  destruct (POST_success _ _ _ _ _ _ _ _ Hrun)
    as (p & lm & src & u & c & _ & _ & _ & _ & Hcast & Hu & Hnb & Hs').
  cbn zeta in *. apply CAST_is_round4 in Hcast.
  exists u, c. split; [exact Hu |]. split; [exact Hcast |].
  split.
  { exists (Outlet.usage_record data i o t nb). subst s'. cbn.
    split; [apply last_snoc | reflexivity]. }
  split; [subst s'; cbn; apply lookup_insert_eq |].
  split; [exact Hnb |].
  intros Hcap Hcredit Hsame.
  rewrite Z.min_l in Hnb by exact Hcap.
  rewrite Hnb, Number_minus in Hsame.
  replace (balance u - (balance u - c)) with c in Hsame by lia.
  pose proof (Number_round4_close (t - getModelInletCost (Outlet.model data)))
    as [Hlo Hhi].
  rewrite <- Hcast, Hsame in Hlo, Hhi.
  revert Hcredit. apply Qabs_case; intros Hsign Hcredit; lra.
Qed.

Lemma updateUserBalance_run userId cost s :
  Users.updateUserBalance userId cost s
  = if Qlt_le_dec max_balance cost then (Throw BalanceExceedsMaximum, s)
    else
      match CAST_DECIMAL_16_4 cost with
      | None => (Throw StatementError, s)
      | Some c =>
          match users (db s) !! userId with
          | None => (Throw UserNotFound, s)
          | Some u =>
              (Return (Number (Z.min c MAX_BALANCE)),
               set_db (set_users
                         (<[userId := set_balance (Z.min c MAX_BALANCE) u]>
                            (users (db s))) (db s)) s)
          end
      end.
Proof.
  unfold Users.updateUserBalance, Users.UPDATE_balance_WHERE_id.
  destruct (Qlt_le_dec max_balance cost); [reflexivity |].
  cbv beta iota zeta delta [mbind M_bind bind mret M_ret ret throw lift].
  destruct (CAST_DECIMAL_16_4 cost) as [c |]; [| reflexivity].
  destruct (users (db s) !! userId); reflexivity.
Qed.

Lemma getOrCreateUser_run env userData s :
  Users.getOrCreateUser env userData s
  = match numeric_in (Js.env_or env "INIT_BALANCE" "0") with
    | None => (Throw StatementError, s)
    | Some v =>
        match CAST_DECIMAL_16_4 v with
        | None => (Throw StatementError, s)
        | Some b =>
            let row :=
              match users (db s) !! Users.ud_id userData with
              | Some u =>
                  {| email := Users.ud_email userData;
                     name := Users.ud_name userData;
                     role := role u; balance := balance u;
                     default_balance := default_balance u;
                     deleted := deleted u |}
              | None =>
                  {| email := Users.ud_email userData;
                     name := Users.ud_name userData;
                     role := match Users.ud_role userData with
                             | Some EmptyString | None => "user"
                             | Some r => r
                             end;
                     balance := b; default_balance := b;
                     deleted := Some false |}
              end in
            (Return row,
             set_db (set_users (<[Users.ud_id userData := row]> (users (db s)))
                               (db s)) s)
        end
    end.
Proof.
  unfold Users.getOrCreateUser.
  cbv beta iota zeta delta
    [mbind M_bind bind mret M_ret ret throw lift get_db put_db].
  destruct (numeric_in _) as [v |]; [| reflexivity].
  destruct (CAST_DECIMAL_16_4 v) as [b |]; reflexivity.
Qed.

(** C5. After a charge and after [updateUserBalance] the balance of the
    account is at most 999999.9999.  [updateUserBalance] refuses a value
    above the maximum before it writes anything.  A charge does not
    refuse: the statement caps the decremented balance at the maximum with
    [LEAST], and the capped balance is committed.  [getOrCreateUser] leaves
    the balance of an existing account as it is. *)
Theorem balance_capped_at_maximum :
  (forall env data d i o t nb s',
      POST env data (idle d) = (Return (Outlet.Success i o t nb), s') ->
      exists (u : User) (c : Z),
        users d !! Outlet.user_id data = Some u
        /\ c = round4 (t - getModelInletCost (Outlet.model data))
        /\ users (db s') !! Outlet.user_id data
           = Some (set_balance (Z.min (balance u - c) MAX_BALANCE) u)
        /\ Z.min (balance u - c) MAX_BALANCE <= MAX_BALANCE
        /\ nb = Number (Z.min (balance u - c) MAX_BALANCE)
        /\ (nb <= max_balance)%Q)
  /\ (forall userId cost s,
         ((max_balance < cost)%Q ->
          Users.updateUserBalance userId cost s
          = (Throw BalanceExceedsMaximum, s))
         /\ (forall nb s',
                Users.updateUserBalance userId cost s = (Return nb, s') ->
                exists (u : User) (b : Z),
                  users (db s) !! userId = Some u
                  /\ users (db s') !! userId = Some (set_balance b u)
                  /\ b = Z.min (round4 cost) MAX_BALANCE
                  /\ b <= MAX_BALANCE
                  /\ nb = Number b))
  /\ (forall env userData s u row s',
         users (db s) !! Users.ud_id userData = Some u ->
         Users.getOrCreateUser env userData s = (Return row, s') ->
         users (db s') !! Users.ud_id userData = Some row
         /\ balance row = balance u).
Proof.
  split; [| split].
  - intros env data d i o t nb s' Hrun.
    destruct (POST_success _ _ _ _ _ _ _ _ Hrun)
      as (p & lm & src & u & c & _ & _ & _ & _ & Hcast & Hu & Hnb & Hs').
    cbn zeta in *. apply CAST_is_round4 in Hcast.
    exists u, c. split; [exact Hu |]. split; [exact Hcast |].
    split; [subst s'; cbn; apply lookup_insert_eq |].
    split; [apply Z.le_min_r |]. split; [exact Hnb |].
    rewrite Hnb. apply Number_le_max, Z.le_min_r.
  - intros userId cost s. rewrite updateUserBalance_run. split.
    + intros Hover.
      destruct (Qlt_le_dec max_balance cost) as [| Hle]; [reflexivity |].
      destruct (Qlt_not_le _ _ Hover Hle).
    + intros nb s'.
      destruct (Qlt_le_dec max_balance cost); [discriminate |].
      destruct (CAST_DECIMAL_16_4 cost) as [c |] eqn:Hcast; [| discriminate].
      destruct (users (db s) !! userId) as [u |]; [| discriminate].
      intros [= <- <-]. apply CAST_is_round4 in Hcast. subst c.
      exists u, (Z.min (round4 cost) MAX_BALANCE).
      split; [reflexivity |]. split; [cbn; apply lookup_insert_eq |].
      split; [reflexivity |]. split; [apply Z.le_min_r | reflexivity].
  - intros env userData s u row s' Hu. rewrite getOrCreateUser_run, Hu.
    destruct (numeric_in _) as [v |]; [| discriminate].
    destruct (CAST_DECIMAL_16_4 v) as [b |]; [| discriminate].
    cbn zeta. intros [= <- <-]. split; [cbn; apply lookup_insert_eq | reflexivity].
Qed.


End Collaborators.

(** ** The charge of the specification's example *)

(** Prices 2 and 6 per million, 1000 input and 500 output tokens, no inlet
    credit, a balance of 100: the cost is 0.005, the new balance 99.995,
    and one usage record with these values is written. *)
Example priced_charge :
  let run :=
    Outlet.POST Samples.char_tokens Samples.no_credit Samples.any_row ∅
      Samples.priced_request (idle (Samples.tables 1000000)) in
  run.1 = Return (Outlet.Success 1000 500 (5000000000 # 1000000000000)
                    (999950 # 10000))
  /\ (5000000000 # 1000000000000 == 5 # 1000)%Q
  /\ (999950 # 10000 == 99995 # 1000)%Q
  /\ balance <$> users (db run.2) !! "ann" = Some 999950
  /\ user_usage_records (db run.2)
     = [ {| user_id := "ann"; nickname := "Ann"; model_name := "m";
            input_tokens := 1000; output_tokens := 500;
            cost := 5000000000 # 1000000000000;
            balance_after := 999950 # 10000 |} ].
Proof. vm_compute. repeat split. Qed.

(** A usage record that the store refuses: the balance, already
    decremented inside the transaction, is back at 100 after the
    rollback. *)
Example refused_row_is_rolled_back :
  let run :=
    Outlet.POST Samples.char_tokens Samples.no_credit Samples.no_row ∅
      Samples.priced_request (idle (Samples.tables 1000000)) in
  run.1 = Return (Outlet.Failure StatementError)
  /\ balance <$> users (db run.2) !! "ann" = Some 1000000
  /\ user_usage_records (db run.2) = [].
Proof. vm_compute. repeat split. Qed.

(** The other failures: a tokenizer that throws, no message at all, no
    price, and an unknown user. *)
Example failures_change_nothing :
  (Outlet.POST Samples.no_tokens Samples.no_credit Samples.any_row ∅
     (Samples.request "m" [Samples.question "hello"])
     (idle (Samples.tables 1000000))).1
  = Return (Outlet.Failure TokenizerError)
  /\ (Outlet.POST Samples.char_tokens Samples.no_credit Samples.any_row ∅
        (Samples.request "m" []) (idle (Samples.tables 1000000))).1
     = Return (Outlet.Failure TypeError)
  /\ (Outlet.POST Samples.char_tokens Samples.no_credit Samples.any_row
        Samples.negative_input_price
        (Samples.request "gpt-4" [Samples.question "hello"])
        (idle (Samples.tables 1000000))).1
     = Return (Outlet.Failure (PriceNotFound "gpt-4"))
  /\ (Outlet.POST Samples.char_tokens Samples.no_credit Samples.any_row ∅
        {| Outlet.model := "m";
           Outlet.messages := [Samples.question "hello"];
           Outlet.user_id := "dave"; Outlet.user_name := None |}
        (idle (Samples.tables 1000000))).1
     = Return (Outlet.Failure UserDoesNotExist).
Proof. vm_compute. repeat split. Qed.

(** ** The theorems at work on the samples *)

Lemma total_cost_follows_three_rules_witness :
  exists p : ModelPrice,
    Samples.prices !! "m" = Some p
    /\ Reference.total_cost_rule p 1000 500 (5000000000 # 1000000000000).
Proof.
  destruct (proj2 (proj2 (total_cost_follows_three_rules
                            Samples.char_tokens Samples.no_credit
                            Samples.any_row))
              ∅ Samples.priced_request (Samples.tables 1000000)
              1000 500 (5000000000 # 1000000000000)%Q (999950 # 10000)%Q
              (Outlet.POST Samples.char_tokens Samples.no_credit
                 Samples.any_row ∅ Samples.priced_request
                 (idle (Samples.tables 1000000))).2)
    as (p & Hp & Hrule & _).
  - vm_compute. reflexivity.
  - exists p. split; [| exact Hrule].
    vm_compute in Hp. injection Hp as <-. vm_compute. reflexivity.
Defined.

Lemma overflow_check_is_unreachable_witness :
  (Number MAX_BALANCE <= max_balance)%Q.
Proof.
  apply (proj1 (overflow_check_is_unreachable
                  Samples.char_tokens Samples.credit_of_one Samples.any_row
                  ∅ Samples.free_request (Samples.tables MAX_BALANCE))
           "ann" (-10000) (idle (Samples.tables MAX_BALANCE))
           (Users.UPDATE_balance_WHERE_id "ann" (Outlet.LEAST_decrement (-10000))
              (idle (Samples.tables MAX_BALANCE))).2
           [MAX_BALANCE] MAX_BALANCE).
  - vm_compute. reflexivity.
  - apply list_elem_of_singleton. reflexivity.
Defined.

(** With a credit of 1 the charge of 0.005 raises the balance from 100 to
    100.995, while 0.005 is recorded. *)
Lemma recorded_cost_is_gross_witness :
  (Outlet.POST Samples.char_tokens Samples.credit_of_one Samples.any_row ∅
     Samples.priced_request (idle (Samples.tables 1000000))).1
  = Return (Outlet.Success 1000 500 (5000000000 # 1000000000000)
              (1009950 # 10000))
  /\ ~ (Number 1000000 - (1009950 # 10000) == 5000000000 # 1000000000000)%Q.
Proof.
  split; [vm_compute; reflexivity |].
  destruct (recorded_cost_is_gross
              Samples.char_tokens Samples.credit_of_one Samples.any_row
              ∅ Samples.priced_request (Samples.tables 1000000)
              1000 500 (5000000000 # 1000000000000)%Q (1009950 # 10000)%Q
              (Outlet.POST Samples.char_tokens Samples.credit_of_one
                 Samples.any_row ∅ Samples.priced_request
                 (idle (Samples.tables 1000000))).2)
    as (u & c & Hu & Hc & _ & _ & _ & Hdiff).
  - vm_compute. reflexivity.
  - vm_compute in Hu. injection Hu as <-. subst c. apply Hdiff.
    + vm_compute. discriminate.
    + vm_compute. reflexivity.
Defined.

(** [updateUserBalance] refuses 1,000,000. *)
Lemma balance_capped_at_maximum_witness :
  Users.updateUserBalance "ann" 1000000 (idle (Samples.tables 0))
  = (Throw BalanceExceedsMaximum, idle (Samples.tables 0)).
Proof.
  apply (proj1 (proj2 (balance_capped_at_maximum
                         Samples.char_tokens Samples.no_credit
                         Samples.any_row))).
  vm_compute. reflexivity.
Defined.


(** ** Where the code departs from the specification's words *)

(** The last message reports 12 prompt tokens and 0 completion tokens.
    These explicit counts are not used: a count of 0 is falsy, so the
    tokenizer is run and gives 5 input tokens.  And a message of 50,001
    characters is estimated at 12,501 tokens, which is not 50,001 / 4. *)
Lemma reported_zero_counterexample :
  Outlet.usage Samples.empty_reply
  = Some {| Outlet.prompt_tokens := Some 12;
            Outlet.completion_tokens := Some 0 |}
  /\ (Outlet.countTokens Samples.char_tokens Samples.empty_exchange
        Samples.empty_reply (idle (Samples.tables 0))).1
     = Return (5, 0, Outlet.TOKENIZER)
  /\ (Outlet.countTokens Samples.char_tokens Samples.empty_exchange
        Samples.empty_reply (idle (Samples.tables 0))).1
     <> Return (12, 0, Outlet.LLM_USAGE)
  /\ (Outlet.countTokens Samples.char_tokens [Samples.long_question]
        Samples.long_question (idle (Samples.tables 0))).1
     = Return (0, 12501, Outlet.ESTIMATION)
  /\ ~ (inject_Z 12501 == inject_Z 50001 / 4)%Q.
Proof.
  split; [reflexivity |]. split; [vm_compute; reflexivity |].
  split; [vm_compute; discriminate |]. split; [vm_compute; reflexivity |].
  vm_compute. discriminate.
Qed.

(** A new account is opened with [INIT_BALANCE] = 5000000, above the
    maximum.  And a charge with a net cost of -1 on a balance at the
    maximum would take the balance above it: the charge is not refused, it
    is committed with the balance capped. *)
Lemma balance_maximum_counterexample :
  (balance <$> (users (db (Users.getOrCreateUser Samples.init_balance_5000000
                             Samples.carol (idle (Samples.tables 0))).2)
                !! "carol")
   = Some 50000000000
   /\ MAX_BALANCE < 50000000000)
  /\ (let run :=
        Outlet.POST Samples.char_tokens Samples.credit_of_one Samples.any_row
          ∅ Samples.free_request (idle (Samples.tables MAX_BALANCE)) in
      MAX_BALANCE
      < balance (Samples.ann MAX_BALANCE)
        - round4 (0 - Samples.credit_of_one "free")
      /\ run.1 = Return (Outlet.Success 5 7 0 max_balance)
      /\ snapshot run.2 = None
      /\ balance <$> users (db run.2) !! "ann" = Some MAX_BALANCE
      /\ length (user_usage_records (db run.2)) = 1%nat).
Proof. vm_compute. repeat split. Qed.


(** Two committed charges with a non-zero inlet credit whose recorded cost
    is the change of the balance.  With a credit of 1 on a balance at the
    maximum, 0 is recorded and the capped balance does not move.  With a
    credit of 0.00001, 0.005 is recorded and the balance goes from 100 to
    99.995. *)
Lemma inlet_credit_counterexample :
  (let run :=
     Outlet.POST Samples.char_tokens Samples.credit_of_one Samples.any_row
       ∅ Samples.free_request (idle (Samples.tables MAX_BALANCE)) in
   ~ (Samples.credit_of_one "free" == 0)%Q
   /\ run.1 = Return (Outlet.Success 5 7 0 max_balance)
   /\ cost <$> last (user_usage_records (db run.2)) = Some 0%Q
   /\ balance <$> users (db run.2) !! "ann" = Some MAX_BALANCE
   /\ (Number MAX_BALANCE - Number MAX_BALANCE == 0)%Q)
  /\ (let run :=
        Outlet.POST Samples.char_tokens Samples.tiny_credit Samples.any_row
          ∅ Samples.priced_request (idle (Samples.tables 1000000)) in
      ~ (Samples.tiny_credit "m" == 0)%Q
      /\ run.1 = Return (Outlet.Success 1000 500 (5000000000 # 1000000000000)
                           (999950 # 10000))
      /\ cost <$> last (user_usage_records (db run.2))
         = Some (5000000000 # 1000000000000)%Q
      /\ balance <$> users (db run.2) !! "ann" = Some 999950
      /\ (Number 1000000 - Number 999950 == 5000000000 # 1000000000000)%Q).
Proof.
  split; cbn zeta; repeat split; try (vm_compute; reflexivity);
    vm_compute; discriminate.
Qed.

End ChargeProperties.

(* ===================================================================== *)
(** * The ledger: bulk reset, deletion, default balance, sign-in *)
(* ===================================================================== *)

Module LedgerProperties.
Import Pg.

Lemma set_users_same (d : DB) : set_users (users d) d = d.
Proof. destruct d. reflexivity. Qed.

Lemma set_db_same (s : Session) : set_db (db s) s = s.
Proof. destruct s. reflexivity. Qed.

Lemma set_balance_same (u : User) : set_balance (balance u) u = u.
Proof. destruct u. reflexivity. Qed.

Lemma not_deleted_at_default (u : User) :
  Users.not_deleted (Views.at_default u) = Users.not_deleted u.
Proof. unfold Views.at_default. destruct (Users.not_deleted u) eqn:H; auto. Qed.

Lemma at_default_twice (u : User) :
  Views.at_default (Views.at_default u) = Views.at_default u.
Proof.
  unfold Views.at_default at 1. rewrite not_deleted_at_default.
  unfold Views.at_default. destruct (Users.not_deleted u); reflexivity.
Qed.

Lemma all_reset_twice (d : DB) :
  Views.all_reset (Views.all_reset d) = Views.all_reset d.
Proof.
  unfold Views.all_reset, set_users. cbn. f_equal.
  rewrite <- map_fmap_compose. apply map_fmap_ext.
  intros i u _. apply at_default_twice.
Qed.

Lemma active_count_all_reset (m : gmap string User) :
  size (filter (fun kv => Users.not_deleted kv.2 = true) (Views.at_default <$> m))
  = size (filter (fun kv => Users.not_deleted kv.2 = true) m).
Proof.
  rewrite map_filter_fmap, map_size_fmap. f_equal.
  apply map_filter_ext. intros i u _. cbn. rewrite not_deleted_at_default.
  reflexivity.
Qed.

Lemma resetAllBalancesToDefault_run (s : Session) :
  Users.resetAllBalancesToDefault s
  = (Return (size (filter (fun kv => Users.not_deleted kv.2 = true)
                     (users (db s)))),
     set_db (Views.all_reset (db s)) s).
Proof. reflexivity. Qed.

(** X1. The bulk reset puts every account that is not deleted at its
    default balance and leaves a deleted account, and every other table,
    as it is; it counts at most the accounts there are; and run a second
    time it counts the same accounts and changes nothing. *)
Theorem bulk_reset_spares_deleted_accounts (s : Session) :
  exists n : nat,
    Users.resetAllBalancesToDefault s
    = (Return n, set_db (Views.all_reset (db s)) s)
    /\ (n <= size (users (db s)))%nat
    /\ (forall id u,
          users (db s) !! id = Some u ->
          users (Views.all_reset (db s)) !! id
          = Some (if Users.not_deleted u
                  then set_balance (default_balance u) u else u))
    /\ (forall id,
          users (db s) !! id = None ->
          users (Views.all_reset (db s)) !! id = None)
    /\ system_settings (Views.all_reset (db s)) = system_settings (db s)
    /\ user_usage_records (Views.all_reset (db s)) = user_usage_records (db s)
    /\ Users.resetAllBalancesToDefault (set_db (Views.all_reset (db s)) s)
       = (Return n, set_db (Views.all_reset (db s)) s).
Proof.
  eexists. split; [apply resetAllBalancesToDefault_run |].
  split; [apply map_subseteq_size, map_filter_subseteq |].
  split.
  { intros id u Hu. cbn. rewrite lookup_fmap, Hu. reflexivity. }
  split.
  { intros id Hu. cbn. rewrite lookup_fmap, Hu. reflexivity. }
  split; [reflexivity |]. split; [reflexivity |].
  rewrite resetAllBalancesToDefault_run. f_equal.
  - f_equal. cbn. apply active_count_all_reset.
  - destruct s as [d snap]. unfold set_db. cbn. f_equal. apply all_reset_twice.
Qed.

Lemma deleteUser_run (userId : string) (s : Session) :
  Users.deleteUser userId s
  = (Return tt,
     match users (db s) !! userId with
     | Some u =>
         set_db (Views.with_user userId (Views.marked_deleted u) (db s)) s
     | None => s
     end).
Proof.
  unfold Users.deleteUser.
  cbv beta iota zeta delta [mbind M_bind bind mret M_ret ret get_db put_db].
  destruct (users (db s) !! userId); reflexivity.
Qed.

(** X2. [deleteUser] only sets the flag [deleted] of the account, and
    does nothing for an unknown user.  From then on the bulk reset passes
    the account by, its balance staying what it was, while
    [resetUserBalanceToDefault] still resets it. *)
Theorem deleted_account_is_skipped_by_bulk_reset
    (userId : string) (u : User) (s : Session) :
  users (db s) !! userId = Some u ->
  let s1 := (Users.deleteUser userId s).2 in
  users (db s1) !! userId = Some (Views.marked_deleted u)
  /\ Views.only_user_changed userId (db s) (db s1)
  /\ users (db (Users.resetAllBalancesToDefault s1).2) !! userId
     = Some (Views.marked_deleted u)
  /\ (Users.resetUserBalanceToDefault userId s1).1
     = Return (Number (default_balance u))
  /\ balance <$> users (db (Users.resetUserBalanceToDefault userId s1).2)
                 !! userId
     = Some (default_balance u)
  /\ (forall unknown : string,
        users (db s) !! unknown = None ->
        Users.deleteUser unknown s = (Return tt, s)).
Proof.
  intros Hu s1. subst s1. rewrite deleteUser_run, Hu. cbn [snd].
  assert (users (db (set_db (Views.with_user userId (Views.marked_deleted u)
                               (db s)) s)) !! userId
          = Some (Views.marked_deleted u)) as Hdel
    by (cbn; apply lookup_insert_eq).
  split; [exact Hdel |].
  split.
  { repeat split. intros other Hne. cbn. rewrite lookup_insert_ne; congruence. }
  split.
  { rewrite resetAllBalancesToDefault_run. cbn [snd].
    cbn. rewrite lookup_fmap, lookup_insert_eq. reflexivity. }
  rewrite ResetProperties.resetUserBalanceToDefault_run, Hdel. cbn [fst snd].
  split; [reflexivity |].
  split; [cbn; rewrite lookup_insert_eq; reflexivity |].
  intros unknown Hnone. rewrite deleteUser_run, Hnone. reflexivity.
Qed.

Lemma deleted_account_is_skipped_by_bulk_reset_witness :
  balance <$> users (db (Users.resetAllBalancesToDefault
                           (Users.deleteUser "ann" (idle (Samples.tables 31))).2).2)
              !! "ann"
  = Some 31.
Proof.
  destruct (deleted_account_is_skipped_by_bulk_reset "ann" (Samples.ann 31)
              (idle (Samples.tables 31)) eq_refl)
    as (_ & _ & Hbulk & _).
  rewrite Hbulk. reflexivity.
Defined.

(** X3. [updateUserDefaultBalance] refuses a value above 999999.9999 and
    fails for an unknown user, in both cases without a change.  Otherwise
    it stores the value rounded to four decimals as the default balance of
    that account only, the balance itself staying what it was, and returns
    what it stored, which is at most the maximum; a reset of the account
    right after gives exactly the returned value as balance. *)
Theorem default_balance_is_what_the_next_reset_gives
    (userId : string) (x : Q) (s : Session) :
  match Users.updateUserDefaultBalance userId x s with
  | (Users.DefaultBalanceSet q, s1) =>
      (x <= max_balance)%Q
      /\ (q <= max_balance)%Q
      /\ exists u : User,
           users (db s) !! userId = Some u
           /\ q = Number (Z.min (round4 x) MAX_BALANCE)
           /\ users (db s1) !! userId
              = Some (Views.with_default (Z.min (round4 x) MAX_BALANCE) u)
           /\ Views.only_user_changed userId (db s) (db s1)
           /\ (Users.resetUserBalanceToDefault userId s1).1 = Return q
           /\ balance <$> users (db (Users.resetUserBalanceToDefault userId s1).2)
                          !! userId
              = Some (Z.min (round4 x) MAX_BALANCE)
  | (Users.DefaultBalanceExceedsMaximum, s1) =>
      (max_balance < x)%Q /\ s1 = s
  | (Users.DefaultBalanceThrow e, s1) =>
      (x <= max_balance)%Q /\ s1 = s
      /\ (e = UserNotFound -> users (db s) !! userId = None)
  end.
Proof.
  unfold Users.updateUserDefaultBalance.
  destruct (Qlt_le_dec max_balance x) as [Hover | Hle]; [split; auto |].
  destruct (CAST_DECIMAL_16_4 x) as [c |] eqn:Hcast.
  2:{ repeat split; auto. discriminate. }
  apply ChargeProperties.CAST_is_round4 in Hcast. subst c.
  destruct (users (db s) !! userId) as [u |] eqn:Hu.
  2:{ repeat split; auto. }
  cbn zeta.
  split; [exact Hle |].
  split; [apply ChargeProperties.Number_le_max, Z.le_min_r |].
  exists u. split; [reflexivity |]. split; [reflexivity |].
  split; [cbn; apply lookup_insert_eq |].
  split.
  { repeat split. intros other Hne. cbn. rewrite lookup_insert_ne; congruence. }
  rewrite ResetProperties.resetUserBalanceToDefault_run.
  cbn [db set_db users set_users]. rewrite lookup_insert_eq. cbn [fst snd].
  split; [reflexivity |]. cbn. rewrite lookup_insert_eq. reflexivity.
Qed.

(** X4. [getOrCreateUser] is idempotent: called again with the same data
    it returns the same row and changes nothing.  It touches no other
    account and no other table.  A new account starts with its balance at
    its default balance and not deleted, so that a reset right after the
    creation changes nothing; an existing account keeps its role, balance,
    default balance and flag [deleted] (a deleted user who signs in again
    stays deleted) and takes the e-mail and the name of the data. *)
Theorem getOrCreateUser_is_idempotent
    (env : Js.Env) (userData : Users.UserData) (s s1 : Session) (row : User) :
  Users.getOrCreateUser env userData s = (Return row, s1) ->
  Users.getOrCreateUser env userData s1 = (Return row, s1)
  /\ users (db s1) !! Users.ud_id userData = Some row
  /\ Views.only_user_changed (Users.ud_id userData) (db s) (db s1)
  /\ email row = Users.ud_email userData
  /\ name row = Users.ud_name userData
  /\ (users (db s) !! Users.ud_id userData = None ->
      balance row = default_balance row
      /\ deleted row = Some false
      /\ Users.resetUserBalanceToDefault (Users.ud_id userData) s1
         = (Return (Number (balance row)), s1))
  /\ (forall u : User,
        users (db s) !! Users.ud_id userData = Some u ->
        role row = role u /\ balance row = balance u
        /\ default_balance row = default_balance u
        /\ deleted row = deleted u).
Proof.
  rewrite !ChargeProperties.getOrCreateUser_run.
  destruct (numeric_in _) as [v |]; [| discriminate].
  destruct (CAST_DECIMAL_16_4 v) as [b |]; [| discriminate].
  cbn zeta. intros [= Hrow Hs1].
  assert (users (db s1) !! Users.ud_id userData = Some row) as Hrow1.
  { subst s1. cbn. rewrite lookup_insert_eq. congruence. }
  assert (email row = Users.ud_email userData
          /\ name row = Users.ud_name userData) as [Hemail Hname].
  { subst row. destruct (users (db s) !! Users.ud_id userData); split; reflexivity. }
  split.
  { rewrite Hrow1.
    assert ({| email := Users.ud_email userData; name := Users.ud_name userData;
               role := role row; balance := balance row;
               default_balance := default_balance row;
               deleted := deleted row |} = row) as ->.
    { rewrite <- Hemail, <- Hname. destruct row. reflexivity. }
    rewrite insert_id by exact Hrow1.
    rewrite set_users_same, set_db_same. reflexivity. }
  split; [exact Hrow1 |].
  split.
  { subst s1. repeat split. intros other Hne. cbn.
    rewrite lookup_insert_ne; congruence. }
  split; [exact Hemail |]. split; [exact Hname |].
  split.
  - intros Hnew. rewrite Hnew in Hrow.
    assert (balance row = default_balance row) as Hbal by (subst row; reflexivity).
    split; [exact Hbal |]. split; [subst row; reflexivity |].
    rewrite ResetProperties.resetUserBalanceToDefault_run, Hrow1, <- Hbal.
    f_equal. rewrite set_balance_same, insert_id by exact Hrow1.
    rewrite set_users_same. apply set_db_same.
  - intros u Hu. rewrite Hu in Hrow. subst row. repeat split.
Qed.

Lemma getOrCreateUser_is_idempotent_witness :
  exists (row : User) (s1 : Session),
    Users.getOrCreateUser Samples.init_balance_5000000 Samples.carol s1
    = (Return row, s1)
    /\ balance row = default_balance row.
Proof.
  eexists. exists (Users.getOrCreateUser Samples.init_balance_5000000
                     Samples.carol (idle (Samples.tables 0))).2.
  destruct (getOrCreateUser_is_idempotent Samples.init_balance_5000000
              Samples.carol (idle (Samples.tables 0))
              (Users.getOrCreateUser Samples.init_balance_5000000
                 Samples.carol (idle (Samples.tables 0))).2
              {| email := "carol@example.org"; name := "Carol"; role := "user";
                 balance := 50000000000; default_balance := 50000000000;
                 deleted := Some false |})
    as (Hagain & _ & _ & _ & _ & Hnew & _).
  - vm_compute. reflexivity.
  - split; [exact Hagain |]. reflexivity.
Defined.

End LedgerProperties.

(* ===================================================================== *)
(** * Ticks of the scheduler and requests for a reset of all accounts *)
(* ===================================================================== *)

Module TickProperties.
Import Pg Scheduler.

Lemma shouldAutoResetNow_reads env date s :
  exists b : bool, shouldAutoResetNow env date s = (Return b, s).
Proof.
  unfold shouldAutoResetNow.
  destruct (negb (isAutoResetEnabled env)); [eauto |].
  destruct (Js.lt _ _); [eauto |].
  cbv beta iota zeta delta
    [Users.getLastResetDate mbind M_bind bind mret M_ret ret get_db].
  destruct (system_settings (db s) !! "last_balance_reset") as [r |]; [| eauto].
  destruct ((Js.getMonth r =? Js.getMonth date)
            && (Js.getFullYear r =? Js.getFullYear date)); eauto.
Qed.

(** Once a reset is on record for the month of [date], none is due. *)
Lemma not_due_after_reset_in_month env date r s :
  last_reset s = Some r -> Views.same_month r date ->
  shouldAutoResetNow env date s = (Return false, s).
Proof.
  intros Hr [Hm Hy].
  destruct (isAutoResetEnabled env) eqn:Hen;
    [| unfold shouldAutoResetNow; rewrite Hen; reflexivity].
  destruct (Js.lt (Some (Js.getDate date)) (getEffectiveResetDay env date))
    eqn:Hday;
    [unfold shouldAutoResetNow; rewrite Hen, Hday; reflexivity |].
  apply (SchedulerProperties.shouldAutoResetNow_on_or_after env date s false
           Hen Hday).
  rewrite Hr, Hm, Hy, !Z.eqb_refl. reflexivity.
Qed.

Lemma checkAndReset_run env now s :
  checkAndReset env now s
  = (Return tt,
     match (shouldAutoResetNow env now s).1 with
     | Return true => set_db (Views.stamped now (Views.all_reset (db s))) s
     | _ => s
     end).
Proof.
  unfold checkAndReset, try_catch.
  unfold mbind at 1, M_bind at 1, bind at 1.
  destruct (shouldAutoResetNow_reads env now s) as [b Hb]. rewrite Hb.
  cbn [fst]. destruct b; reflexivity.
Qed.

Lemma last_reset_stamped now d snap :
  last_reset {| db := Views.stamped now d; snapshot := snap |} = Some now.
Proof. unfold last_reset. cbn. apply lookup_insert_eq. Qed.

Lemma same_month_refl d : Views.same_month d d.
Proof. split; reflexivity. Qed.

(** X5. A tick of the scheduler never throws.  When no reset is due it
    changes nothing.  When one is due it puts every account that is not
    deleted at its default balance and records the instant of the tick as
    the last reset; after that, no reset is due at any instant of the
    same calendar month, and a tick then changes nothing: the balances
    are reset at most once a month. *)
Theorem tick_resets_at_most_once_a_month
    (env : Js.Env) (now : Js.Date) (s : Session) :
  exists s1 : Session,
    checkAndReset env now s = (Return tt, s1)
    /\ match (shouldAutoResetNow env now s).1 with
       | Return true =>
           db s1 = Views.stamped now (Views.all_reset (db s))
           /\ snapshot s1 = snapshot s
           /\ last_reset s1 = Some now
           /\ (forall id u,
                 users (db s) !! id = Some u ->
                 users (db s1) !! id = Some (Views.at_default u))
           /\ (forall later : Js.Date,
                 Views.same_month later now ->
                 shouldAutoResetNow env later s1 = (Return false, s1)
                 /\ checkAndReset env later s1 = (Return tt, s1))
       | _ => s1 = s
       end.
Proof.
  rewrite checkAndReset_run. eexists. split; [reflexivity |].
  destruct (shouldAutoResetNow_reads env now s) as [b Hb]. rewrite Hb.
  cbn [fst]. destruct b; [| reflexivity].
  destruct s as [d snap]. unfold set_db. cbn [db snapshot].
  split; [reflexivity |]. split; [reflexivity |].
  split; [apply last_reset_stamped |].
  split.
  { intros id u Hu. cbn. rewrite lookup_fmap, Hu. reflexivity. }
  intros later [Hm Hy].
  assert (shouldAutoResetNow env later
            {| db := Views.stamped now (Views.all_reset d); snapshot := snap |}
          = (Return false,
             {| db := Views.stamped now (Views.all_reset d); snapshot := snap |}))
    as Hnot.
  { apply (not_due_after_reset_in_month env later now);
      [apply last_reset_stamped | split; congruence]. }
  split; [exact Hnot |].
  rewrite checkAndReset_run, Hnot. reflexivity.
Qed.

Lemma enabled_configured env :
  isAutoResetEnabled env = true ->
  exists c : Z, getConfiguredResetDay env = Some c /\ 1 <= c <= 31.
Proof.
  unfold isAutoResetEnabled, getConfiguredResetDay.
  destruct (Js.parseInt _) as [n |]; [| discriminate].
  cbn. intros _. eexists. split; [reflexivity |]. lia.
Qed.

(** X6. With auto-reset enabled, the effective reset day of a clock date
    is a day of its month, between 1 and the last day.  From that day on,
    as long as no reset is on record for the month, a reset is due; so it
    is due on the last day of the month at the latest. *)
Theorem reset_is_due_by_the_last_day_of_the_month
    (env : Js.Env) (date : Js.Date) (s : Session) :
  Js.clock_date date ->
  isAutoResetEnabled env = true ->
  exists e : Z,
    getEffectiveResetDay env date = Some e
    /\ 1 <= e <= Js.DaysInMonth (Js.getFullYear date) (Js.getMonth date)
    /\ ((forall r, last_reset s = Some r -> ~ Views.same_month r date) ->
        (e <= Js.getDate date ->
         shouldAutoResetNow env date s = (Return true, s))
        /\ (Js.getDate date
            = Js.DaysInMonth (Js.getFullYear date) (Js.getMonth date) ->
            shouldAutoResetNow env date s = (Return true, s))).
Proof.
  intros (Hy & Hm & Hd) Hen.
  destruct (enabled_configured env Hen) as (c & Hc & Hc1).
  assert (getEffectiveResetDay env date
          = Some (Z.min c (Js.DaysInMonth (Js.getFullYear date)
                             (Js.getMonth date)))) as He.
  { unfold getEffectiveResetDay.
    rewrite SchedulerProperties.lastDateBefore_next_month by lia.
    rewrite Hc. reflexivity. }
  eexists. split; [exact He |]. split; [lia |].
  intros Hfresh.
  assert (Z.min c (Js.DaysInMonth (Js.getFullYear date) (Js.getMonth date))
          <= Js.getDate date ->
          shouldAutoResetNow env date s = (Return true, s)) as Hdue.
  { intros Hday.
    apply (SchedulerProperties.shouldAutoResetNow_on_or_after env date s true Hen).
    - rewrite He. cbn [Js.lt]. apply Z.ltb_ge, Hday.
    - destruct (last_reset s) as [r |] eqn:Hr; [| reflexivity].
      cbn [negb]. apply andb_false_iff.
      destruct (Z.eqb_spec (Js.getMonth r) (Js.getMonth date)) as [Hrm |];
        [| left; reflexivity].
      destruct (Z.eqb_spec (Js.getFullYear r) (Js.getFullYear date)) as [Hry |];
        [| right; reflexivity].
      destruct (Hfresh r eq_refl (conj Hrm Hry)). }
  split; [exact Hdue |]. intros Hlast. apply Hdue. lia.
Qed.

(** On 28 February 2023 with [BALANCE_RESET_DAY] = 31 and no reset on
    record, a reset is due. *)
Lemma reset_is_due_by_the_last_day_of_the_month_witness :
  shouldAutoResetNow Samples.reset_day_31 (Js.mkDate 2023 1 28)
    (idle (Samples.tables 0))
  = (Return true, idle (Samples.tables 0)).
Proof.
  destruct (reset_is_due_by_the_last_day_of_the_month Samples.reset_day_31
              (Js.mkDate 2023 1 28) (idle (Samples.tables 0)))
    as (e & _ & _ & Hdue).
  - vm_compute. repeat split; discriminate.
  - reflexivity.
  - apply Hdue; [| reflexivity]. intros r Hr. vm_compute in Hr. discriminate.
Defined.

Lemma POST_all_run env now body s :
  ResetBalances.userId body = None
  \/ ResetBalances.userId body = Some EmptyString ->
  ResetBalances.POST env now body s
  = match ResetBalances.force body, (shouldAutoResetNow env now s).1 with
    | false, Return false =>
        (Return (ResetBalances.ResetNotNeeded (getConfiguredResetDay env)
                   (getEffectiveResetDay env now) (last_reset s)), s)
    | _, _ =>
        (Return (ResetBalances.BalancesReset
                   (size (filter (fun kv => Users.not_deleted kv.2 = true)
                            (users (db s))))),
         set_db (Views.stamped now (Views.all_reset (db s))) s)
    end.
Proof.
  intros Hall.
  assert (ResetBalances.POST env now body s
          = try_catch
              (early ←
                 (if negb (ResetBalances.force body) then
                    shouldReset ← shouldAutoResetNow env now;
                    if negb shouldReset then
                      lastReset ← Users.getLastResetDate;
                      mret (Some (ResetBalances.ResetNotNeeded
                                    (getConfiguredResetDay env)
                                    (getEffectiveResetDay env now) lastReset))
                    else mret None
                  else mret None);
               match early with
               | Some response => mret response
               | None =>
                   count ← Users.resetAllBalancesToDefault;
                   Users.updateLastResetDate now;;
                   mret (ResetBalances.BalancesReset count)
               end)
              (fun error => mret (ResetBalances.Failed error)) s) as ->.
  { unfold ResetBalances.POST. destruct Hall as [-> | ->]; reflexivity. }
  destruct (shouldAutoResetNow_reads env now s) as [b Hb].
  unfold try_catch. unfold mbind at 1, M_bind at 1, bind at 1.
  destruct (ResetBalances.force body); cbn [negb].
  - reflexivity.
  - unfold mbind at 1, M_bind at 1, bind at 1. rewrite Hb. cbn [fst].
    destruct b; reflexivity.
Qed.

(** X7. A request to the reset route that names no user, or names the
    empty string, is a request for all accounts.  Without [force] it
    resets exactly when a reset is due and otherwise answers that none is
    needed, changing nothing.  With [force] it resets whatever the date.
    A reset puts the accounts that are not deleted at their default,
    reports how many there are, and records the instant as the last
    reset: the scheduler then finds no reset due for the rest of that
    month, so a forced reset takes the place of the automatic one. *)
Theorem reset_of_all_accounts_on_request
    (env : Js.Env) (now : Js.Date) (body : ResetBalances.Body) (s : Session) :
  ResetBalances.userId body = None
  \/ ResetBalances.userId body = Some EmptyString ->
  (ResetBalances.force body = false ->
   shouldAutoResetNow env now s = (Return false, s) ->
   ResetBalances.POST env now body s
   = (Return (ResetBalances.ResetNotNeeded (getConfiguredResetDay env)
                (getEffectiveResetDay env now) (last_reset s)), s))
  /\ (ResetBalances.force body = true
      \/ shouldAutoResetNow env now s = (Return true, s) ->
      exists (n : nat) (s1 : Session),
        ResetBalances.POST env now body s
        = (Return (ResetBalances.BalancesReset n), s1)
        /\ Users.resetAllBalancesToDefault s
           = (Return n, set_db (Views.all_reset (db s)) s)
        /\ db s1 = Views.stamped now (Views.all_reset (db s))
        /\ last_reset s1 = Some now
        /\ (forall later : Js.Date,
              Views.same_month later now ->
              checkAndReset env later s1 = (Return tt, s1))).
Proof.
  intros Hall. rewrite (POST_all_run env now body s Hall). split.
  - intros -> ->. reflexivity.
  - intros Hreset.
    exists (size (filter (fun kv => Users.not_deleted kv.2 = true)
                    (users (db s)))),
           (set_db (Views.stamped now (Views.all_reset (db s))) s).
    split.
    { destruct Hreset as [-> | ->].
      - reflexivity.
      - destruct (ResetBalances.force body); reflexivity. }
    split; [reflexivity |]. split; [reflexivity |].
    destruct s as [d snap]. unfold set_db. cbn [db snapshot].
    split; [apply last_reset_stamped |].
    intros later [Hm Hy]. rewrite checkAndReset_run.
    rewrite (not_due_after_reset_in_month env later now);
      [reflexivity | apply last_reset_stamped | split; congruence].
Qed.

(** A forced request naming the empty string on 20 January 2024: Bob,
    who was not named, is at his default of 7.0000, and the tick of 25
    January changes nothing. *)
Lemma reset_of_all_accounts_on_request_witness :
  exists (n : nat) (s1 : Session),
    ResetBalances.POST ∅ (Js.mkDate 2024 0 20)
      {| ResetBalances.userId := Some EmptyString;
         ResetBalances.force := true |}
      (idle (Samples.tables 31))
    = (Return (ResetBalances.BalancesReset n), s1)
    /\ balance <$> users (db s1) !! "bob" = Some 70000
    /\ checkAndReset ∅ (Js.mkDate 2024 0 25) s1 = (Return tt, s1).
Proof.
  destruct (proj2 (reset_of_all_accounts_on_request ∅ (Js.mkDate 2024 0 20)
                     {| ResetBalances.userId := Some EmptyString;
                        ResetBalances.force := true |}
                     (idle (Samples.tables 31)) (or_intror eq_refl))
              (or_introl eq_refl))
    as (n & s1 & Hrun & _ & Hdb & _ & Hlater).
  exists n, s1. split; [exact Hrun |]. split.
  - rewrite Hdb. vm_compute. reflexivity.
  - apply Hlater. split; reflexivity.
Defined.

Lemma GET_run env now st s :
  ResetBalances.GET env now st s
  = match (shouldAutoResetNow env now s).1 with
    | Return b =>
        (Return (ResetBalances.ResetStatus (getConfiguredResetDay env)
                   (getEffectiveResetDay env now) (last_reset s) b
                   (getSchedulerStatus env now st)), s)
    | Throw e => (Return (ResetBalances.GetFailed e), s)
    end.
Proof.
  unfold ResetBalances.GET, try_catch.
  cbv beta iota zeta delta
    [Users.getLastResetDate mbind M_bind bind mret M_ret ret get_db].
  destruct (shouldAutoResetNow_reads env now s) as [b Hb]. rewrite Hb.
  reflexivity.
Qed.

(** The statements of [GET] change nothing in the store and do not
    fail; [should_reset_today] is true exactly when the statements of a
    POST without user and without [force], at the same instant, reset
    the accounts. *)
Lemma GET_only_reads
    (env : Js.Env) (now : Js.Date) (st : State) (s : Session) :
  exists should_reset_today : bool,
    ResetBalances.GET env now st s
    = (Return (ResetBalances.ResetStatus (getConfiguredResetDay env)
                 (getEffectiveResetDay env now) (last_reset s)
                 should_reset_today (getSchedulerStatus env now st)), s)
    /\ isRunning (getSchedulerStatus env now st) = isInitialized st
    /\ (should_reset_today = true <->
        exists (n : nat) (s1 : Session),
          ResetBalances.POST env now
            {| ResetBalances.userId := None; ResetBalances.force := false |} s
          = (Return (ResetBalances.BalancesReset n), s1)).
Proof.
  rewrite GET_run.
  rewrite (POST_all_run env now
             {| ResetBalances.userId := None; ResetBalances.force := false |}
             s (or_introl eq_refl)).
  destruct (shouldAutoResetNow_reads env now s) as [b Hb]. rewrite Hb.
  cbn [fst ResetBalances.force]. exists b.
  split; [reflexivity |]. split; [reflexivity |].
  destruct b; split.
  - intros _. eauto.
  - reflexivity.
  - discriminate.
  - intros (n & s1 & H). discriminate.
Qed.

End TickProperties.

(* ===================================================================== *)
(** * Starting and stopping the scheduler *)
(* ===================================================================== *)

Module LifecycleProperties.
Import Scheduler.

Lemma initScheduler_consistent env st :
  Views.consistent st -> Views.consistent (initScheduler env st).2.
Proof.
  unfold initScheduler.
  destruct (isInitialized st) eqn:Hinit; [cbn [snd]; auto |].
  destruct (negb (isAutoResetEnabled env)); [cbn [snd]; auto |].
  unfold Views.consistent. cbn. rewrite Hinit.
  destruct (schedulerInterval st).
  - intros [H _]. discriminate H.
  - intros [_ ->]. split; [reflexivity |]. apply (right_id_L ∅ (∪)).
Qed.

Lemma stopScheduler_consistent st :
  Views.consistent st -> Views.consistent (stopScheduler st).
Proof.
  unfold Views.consistent, stopScheduler.
  destruct (schedulerInterval st) as [h |] eqn:Hh; cbn.
  - intros [_ ->]. split; [reflexivity |]. apply difference_diag_L.
  - rewrite Hh. auto.
Qed.

Lemma calls_consistent env cs st :
  Views.consistent st -> Views.consistent (Views.calls env cs st).
Proof.
  revert st. induction cs as [| c cs IH]; intros st Hst; [exact Hst |].
  cbn. apply IH. destruct c; cbn.
  - apply initScheduler_consistent, Hst.
  - apply stopScheduler_consistent, Hst.
Qed.

(** X9. Whatever calls of [initScheduler] and [stopScheduler] are made,
    in whatever order, there is never more than one hourly timer: the
    scheduler counts as running exactly when it holds a timer, that timer
    is then the only one set, and a stopped scheduler leaves none
    behind. *)
Theorem never_two_timers (env : Js.Env) (cs : list Views.Call) :
  let st := Views.calls env cs loaded in
  (size (intervals st) <= 1)%nat
  /\ (isInitialized st = true <-> is_Some (schedulerInterval st))
  /\ (forall h : nat, schedulerInterval st = Some h -> intervals st = {[ h ]})
  /\ (schedulerInterval st = None -> intervals st = ∅).
Proof.
  cbn zeta.
  pose proof (calls_consistent env cs loaded (conj eq_refl eq_refl)) as H.
  unfold Views.consistent in H.
  destruct (schedulerInterval (Views.calls env cs loaded)) as [h |];
    destruct H as [Hinit Hset]; rewrite Hinit, Hset.
  - split; [rewrite size_singleton; lia |].
    split; [split; eauto |]. split; [intros ? [= <-]; reflexivity | discriminate].
  - split; [rewrite size_empty; lia |].
    split; [split; [discriminate | intros [? [=]]] |].
    split; [discriminate | reflexivity].
Qed.

(** X10. A second [initScheduler] does nothing: it neither calls
    [checkAndReset] nor sets a timer.  With auto-reset disabled
    [initScheduler] does nothing at all, and the scheduler does not count
    as running.  With auto-reset enabled, a scheduler that was started and
    then stopped holds no timer, and the next [initScheduler] starts it
    again, with a call of [checkAndReset]. *)
Theorem initScheduler_starts_once (env : Js.Env) (st : State) :
  initScheduler env (initScheduler env st).2
  = (false, (initScheduler env st).2)
  /\ (isAutoResetEnabled env = false -> initScheduler env st = (false, st))
  /\ (isAutoResetEnabled env = true ->
      Views.consistent st ->
      let running := (initScheduler env st).2 in
      let stopped := stopScheduler running in
      isInitialized running = true
      /\ isInitialized stopped = false
      /\ intervals stopped = ∅
      /\ (initScheduler env stopped).1 = true
      /\ isInitialized (initScheduler env stopped).2 = true).
Proof.
  split; [| split].
  - unfold initScheduler.
    destruct (isInitialized st) eqn:Hinit; cbn [snd]; [rewrite Hinit; reflexivity |].
    destruct (isAutoResetEnabled env) eqn:Hen; cbn [negb snd];
      rewrite ?Hinit, ?Hen; reflexivity.
  - intros Hoff. unfold initScheduler. rewrite Hoff.
    destruct (isInitialized st); reflexivity.
  - intros Hen Hst. cbn zeta.
    pose proof (initScheduler_consistent env st Hst) as Hrun.
    assert (isInitialized (initScheduler env st).2 = true) as Hinit.
    { unfold initScheduler. rewrite Hen.
      destruct (isInitialized st) eqn:H; [exact H | reflexivity]. }
    pose proof (stopScheduler_consistent _ Hrun) as Hstop.
    assert (schedulerInterval (stopScheduler (initScheduler env st).2) = None)
      as Hnone.
    { unfold stopScheduler.
      destruct (schedulerInterval (initScheduler env st).2) eqn:Hh;
        [reflexivity | exact Hh]. }
    unfold Views.consistent in Hstop. rewrite Hnone in Hstop.
    destruct Hstop as [Hoff Hempty].
    split; [exact Hinit |]. split; [exact Hoff |]. split; [exact Hempty |].
    remember (stopScheduler (initScheduler env st).2) as stopped.
    unfold initScheduler. rewrite Hoff, Hen. split; reflexivity.
Qed.

Lemma initScheduler_starts_once_witness :
  (initScheduler ∅ (stopScheduler (initScheduler ∅ loaded).2)).1 = true.
Proof.
  apply (proj2 (proj2 (initScheduler_starts_once ∅ loaded))).
  - reflexivity.
  - split; reflexivity.
Defined.

(** X11. [ensureRuntimeInitialized] starts the scheduler on its first
    call only, and calls [checkAndReset] then exactly when auto-reset is
    enabled.  Every later call does nothing; in particular, once the
    scheduler has been stopped, [ensureRuntimeInitialized] does not start
    it again. *)
Theorem runtime_is_initialized_once (env : Js.Env) :
  let first := Runtime.ensureRuntimeInitialized env Runtime.loaded in
  first.1 = isAutoResetEnabled env
  /\ isInitialized (Runtime.scheduler first.2) = isAutoResetEnabled env
  /\ (forall (env' : Js.Env) (rt : Runtime.State),
        Runtime.runtimeInitialized rt = true ->
        Runtime.ensureRuntimeInitialized env' rt = (false, rt))
  /\ Runtime.runtimeInitialized first.2 = true
  /\ Runtime.runtimeInitialized (Runtime.stopScheduler first.2) = true
  /\ isInitialized (Runtime.scheduler (Runtime.stopScheduler first.2)) = false
  /\ Runtime.ensureRuntimeInitialized env (Runtime.stopScheduler first.2)
     = (false, Runtime.stopScheduler first.2).
Proof.
  cbn zeta.
  assert (forall (env' : Js.Env) (rt : Runtime.State),
             Runtime.runtimeInitialized rt = true ->
             Runtime.ensureRuntimeInitialized env' rt = (false, rt)) as Hlater.
  { intros env' rt H. unfold Runtime.ensureRuntimeInitialized. rewrite H.
    reflexivity. }
  assert (Runtime.ensureRuntimeInitialized env Runtime.loaded
          = (isAutoResetEnabled env,
             {| Runtime.runtimeInitialized := true;
                Runtime.scheduler :=
                  if isAutoResetEnabled env
                  then {| schedulerInterval := Some 0%nat;
                          isInitialized := true;
                          intervals := {[ 0%nat ]} ∪ ∅;
                          next_handle := 1%nat |}
                  else loaded |})) as ->.
  { unfold Runtime.ensureRuntimeInitialized, initScheduler. cbn.
    destruct (isAutoResetEnabled env); reflexivity. }
  cbn [fst snd].
  destruct (isAutoResetEnabled env);
    repeat (split; [reflexivity || exact Hlater |]); apply Hlater; reflexivity.
Qed.

End LifecycleProperties.

(* ===================================================================== *)
(** * The routes for one user *)
(* ===================================================================== *)

Module RouteProperties.
Import Pg.

Lemma falsy_Number (b : Z) : Js.falsy (Number b) = (b =? 0).
Proof.
  unfold Js.falsy, Number, Qeq_bool. cbn [Qnum Qden].
  rewrite Z.mul_1_r. reflexivity.
Qed.

(** X12. The route that resets the balance of the user of its path never
    answers 404 for a user who does not exist: it answers 500, and changes
    nothing.  It answers 404 "User not found" exactly for an existing
    account whose default balance is 0, and only after it has set the
    balance of that account to 0.  For any other existing account it
    answers with the new balance, the default balance of the account.  An
    empty identifier is refused with 400. *)
Theorem reset_route_takes_zero_for_no_user (id : string) (s : Session) :
  id <> EmptyString ->
  match users (db s) !! id with
  | None =>
      ResetUserBalance.POST id s = (Return ResetUserBalance.Failed500, s)
  | Some u =>
      ResetUserBalance.POST id s
      = (Return (if default_balance u =? 0
                 then ResetUserBalance.UserNotFound404
                 else ResetUserBalance.BalanceReset200
                        (Number (default_balance u))),
         set_db (Views.with_user id (set_balance (default_balance u) u) (db s))
                s)
  end
  /\ ResetUserBalance.POST EmptyString s
     = (Return ResetUserBalance.UserIdRequired400, s).
Proof.
  intros Hne. split; [| reflexivity].
  destruct id as [| c rest]; [congruence |].
  destruct (users (db s) !! String c rest) as [u |] eqn:Hu;
    unfold ResetUserBalance.POST, try_catch;
    unfold mbind at 1, M_bind at 1, bind at 1;
    rewrite ResetProperties.resetUserBalanceToDefault_run, Hu; [| reflexivity].
  rewrite falsy_Number. destruct (default_balance u =? 0); reflexivity.
Qed.

(** Zed has 0.42 and a default balance of 0: the answer is 404 and his
    balance is 0. *)
Lemma reset_route_takes_zero_for_no_user_witness :
  (ResetUserBalance.POST "zed" (idle MoreSamples.club)).1
  = Return ResetUserBalance.UserNotFound404
  /\ balance <$> users (db (ResetUserBalance.POST "zed"
                              (idle MoreSamples.club)).2) !! "zed"
     = Some 0.
Proof.
  pose proof (proj1 (reset_route_takes_zero_for_no_user "zed"
                       (idle MoreSamples.club) ltac:(discriminate))) as H.
  change (users (db (idle MoreSamples.club)) !! "zed")
    with (Some MoreSamples.zed) in H.
  cbv beta iota in H. rewrite H. split; [reflexivity |].
  cbn [snd]. vm_compute. reflexivity.
Defined.

(** X13. The request that sets a default balance is refused with 400,
    before the store is looked at, when the value is not a number, and
    with 500 when the number is above 999999.9999 or the user does not
    exist; a refused request changes nothing.  An accepted request
    changes the default balance of that account and nothing else (its
    balance stays), and answers with the stored value, at most the
    maximum. *)
Theorem default_balance_request_is_checked_first
    (id : string) (value : DefaultBalance.Json) (s : Session) :
  match DefaultBalance.PUT id value s with
  | (DefaultBalance.DefaultBalanceUpdated q, s1) =>
      exists (x : Q) (u : User),
        value = DefaultBalance.JNumber x
        /\ (x <= max_balance)%Q
        /\ users (db s) !! id = Some u
        /\ q = Number (Z.min (round4 x) MAX_BALANCE)
        /\ (q <= max_balance)%Q
        /\ s1 = set_db (Views.with_user id
                          (Views.with_default (Z.min (round4 x) MAX_BALANCE) u)
                          (db s)) s
        /\ balance <$> users (db s1) !! id = Some (balance u)
  | (DefaultBalance.MustBeANumber400, s1) =>
      value = DefaultBalance.JOther /\ s1 = s
  | (DefaultBalance.ExceedsMaximum500, s1) =>
      (exists x : Q, value = DefaultBalance.JNumber x /\ (max_balance < x)%Q)
      /\ s1 = s
  | (DefaultBalance.Failed500 e, s1) =>
      s1 = s /\ (e = UserNotFound -> users (db s) !! id = None)
  end.
Proof.
  unfold DefaultBalance.PUT. destruct value as [x |]; [| split; reflexivity].
  unfold Users.updateUserDefaultBalance.
  destruct (Qlt_le_dec max_balance x) as [Hover | Hle]; [split; eauto |].
  destruct (CAST_DECIMAL_16_4 x) as [c |] eqn:Hcast.
  2:{ split; [reflexivity | discriminate]. }
  apply ChargeProperties.CAST_is_round4 in Hcast. subst c.
  destruct (users (db s) !! id) as [u |] eqn:Hu.
  2:{ split; reflexivity. }
  cbn zeta. exists x, u.
  split; [reflexivity |]. split; [exact Hle |]. split; [reflexivity |].
  split; [reflexivity |].
  split; [apply ChargeProperties.Number_le_max, Z.le_min_r |].
  split; [reflexivity |]. cbn. rewrite lookup_insert_eq. reflexivity.
Qed.

End RouteProperties.

(* ===================================================================== *)
(** * More on charging *)
(* ===================================================================== *)

Module ChargeReach.
Import Pg.

Lemma round4_opposite (q : Q) : round4 (0 - q) = - round4 q.
Proof.
  unfold round4. destruct q as [a b]. unfold Qminus, Qplus, Qopp.
  cbn [Qnum Qden]. rewrite Pos.mul_1_l.
  replace ((0 * Z.pos b + - a * 1) * scale) with (- (a * scale)) by lia.
  rewrite Z.sgn_opp, Z.abs_opp. lia.
Qed.

Lemma estimated_tokens_mono (a b : Z) :
  a <= b -> Reference.estimated_tokens a <= Reference.estimated_tokens b.
Proof.
  intros H. unfold Reference.estimated_tokens.
  apply Z.div_le_mono; lia.
Qed.

Lemma chars_nonneg (m : Outlet.Message) : 0 <= Reference.chars m.
Proof. unfold Reference.chars. lia. Qed.

Lemma aggregate_chars_snoc (ms : list Outlet.Message) (lm : Outlet.Message) :
  Reference.aggregate_chars (ms ++ [lm])
  = Reference.aggregate_chars ms + Reference.chars lm.
Proof.
  unfold Reference.aggregate_chars.
  induction ms as [| m ms IH]; cbn [app foldr]; [lia |].
  rewrite IH. lia.
Qed.

Lemma aggregate_chars_nonneg (ms : list Outlet.Message) :
  0 <= Reference.aggregate_chars ms.
Proof.
  unfold Reference.aggregate_chars.
  induction ms as [| m ms IH]; cbn [foldr]; [lia |].
  pose proof (chars_nonneg m). lia.
Qed.

Lemma totalCost_nonneg (p : ModelPrice) (i o : Z) :
  0 <= i -> 0 <= o ->
  (0 <= input_price p)%Q -> (0 <= output_price p)%Q ->
  (0 <= Outlet.totalCost p i o)%Q.
Proof.
  intros Hi Ho Hip Hop. unfold Outlet.totalCost.
  destruct (o =? 0); [apply Qle_refl |].
  destruct (Qle_bool 0 (per_msg_price p)) eqn:Hfixed;
    [apply Qle_bool_iff, Hfixed |].
  assert (forall n : Z, 0 <= n -> (0 <= inject_Z n / 1000000)%Q) as Hdiv.
  { intros n Hn. apply Qle_shift_div_l; [reflexivity |].
    rewrite Qmult_0_l. unfold Qle. cbn. lia. }
  rewrite <- (Qplus_0_r 0).
  apply Qplus_le_compat; apply Qmult_le_0_compat; auto.
Qed.

Section Collaborators.

Variable encode : string -> option (list Z).
Variable getModelInletCost : string -> Q.
Variable accepts : UsageRecord -> bool.

Local Abbreviation countTokens := (Outlet.countTokens encode).
Local Abbreviation POST := (Outlet.POST encode getModelInletCost accepts).

Lemma exact_tokens_nonneg text n :
  Reference.exact_tokens encode text = Some n -> 0 <= n.
Proof.
  unfold Reference.exact_tokens. destruct (encode text); cbn; [| discriminate].
  intros [= <-]. lia.
Qed.

Lemma exact_total_snoc (ms : list Outlet.Message) (lm : Outlet.Message) :
  Reference.exact_total encode (ms ++ [lm])
  = match Reference.exact_total encode ms,
          Reference.exact_tokens encode (Outlet.content lm) with
    | Some t, Some o => Some (t + o)
    | _, _ => None
    end.
Proof.
  unfold Reference.exact_total.
  induction ms as [| m ms IH]; cbn [app mapM].
  - cbn. destruct (Reference.exact_tokens encode (Outlet.content lm)); cbn;
      [f_equal; lia | reflexivity].
  - destruct (Reference.exact_tokens encode (Outlet.content m)) as [n |]; cbn;
      [| reflexivity].
    destruct (mapM _ (ms ++ [lm])) as [l1 |]; cbn in IH |- *;
      destruct (mapM _ ms) as [l2 |]; cbn in IH |- *;
      destruct (Reference.exact_tokens encode (Outlet.content lm)) as [o |];
      cbn in IH |- *; try discriminate; try reflexivity.
    injection IH as IH. f_equal. lia.
Qed.

Lemma exact_total_nonneg (ms : list Outlet.Message) t :
  Reference.exact_total encode ms = Some t -> 0 <= t.
Proof.
  unfold Reference.exact_total. revert t.
  induction ms as [| m ms IH]; cbn [mapM]; intros t.
  - cbn. intros [= <-]. lia.
  - destruct (Reference.exact_tokens encode (Outlet.content m)) as [n |] eqn:Hn;
      cbn; [| discriminate].
    destruct (mapM _ ms) as [l |]; cbn in *; [| discriminate].
    intros [= <-]. pose proof (IH _ eq_refl). pose proof (exact_tokens_nonneg _ _ Hn).
    lia.
Qed.

(** X14. When the counts are not taken from the reported usage, the last
    message being one of the messages, neither count is negative: the
    output never exceeds the total.  In the tokenizer's case the input
    count is the token count of all the messages before the last.  With
    prices that are not negative the total cost is then not negative
    either. *)
Theorem computed_counts_are_not_negative
    (ms : list Outlet.Message) (lm : Outlet.Message) (s s' : Session)
    (i o : Z) (src : Outlet.TokenSource) :
  last ms = Some lm ->
  src <> Outlet.LLM_USAGE ->
  countTokens ms lm s = (Return (i, o, src), s') ->
  0 <= i /\ 0 <= o
  /\ (src = Outlet.TOKENIZER ->
      exists before : list Outlet.Message,
        ms = (before ++ [lm])%list
        /\ Reference.exact_total encode before = Some i)
  /\ (forall p : ModelPrice,
        (0 <= input_price p)%Q -> (0 <= output_price p)%Q ->
        (0 <= Outlet.totalCost p i o)%Q).
Proof.
  intros Hlast Hsrc Hrun.
  apply last_Some in Hlast as [before ->].
  destruct (ChargeProperties.countTokens_run encode (before ++ [lm]) lm s)
    as (r & Hr & Hrule).
  rewrite Hrun in Hr. injection Hr as <- _.
  assert (0 <= i /\ 0 <= o
          /\ (src = Outlet.TOKENIZER ->
              exists before0 : list Outlet.Message,
                (before ++ [lm])%list = (before0 ++ [lm])%list
                /\ Reference.exact_total encode before0 = Some i))
    as (Hi & Ho & Htok).
  { inversion Hrule as [p c Hrep | Hrep Hbig total output | total output Hrep Hsmall Htotal Hout | ];
      subst.
    - congruence.
    - subst total output. rewrite aggregate_chars_snoc.
      pose proof (chars_nonneg lm). pose proof (aggregate_chars_nonneg before).
      pose proof (estimated_tokens_mono (Reference.chars lm)
                    (Reference.aggregate_chars before + Reference.chars lm)
                    ltac:(lia)).
      pose proof (estimated_tokens_mono 0 (Reference.chars lm) ltac:(lia)) as Hzero.
      change (Reference.estimated_tokens 0) with 0 in Hzero.
      split; [lia |]. split; [lia | discriminate].
    - rewrite exact_total_snoc, Hout in Htotal.
      destruct (Reference.exact_total encode before) as [t |] eqn:Hbefore;
        [| discriminate].
      injection Htotal as <-.
      pose proof (exact_total_nonneg _ _ Hbefore).
      pose proof (exact_tokens_nonneg _ _ Hout).
      split; [lia |]. split; [lia |]. intros _. exists before.
      split; [reflexivity |]. rewrite Hbefore. f_equal. lia. }
  split; [exact Hi |]. split; [exact Ho |]. split; [exact Htok |].
  intros p Hip Hop. apply totalCost_nonneg; assumption.
Qed.

(** What the statements of a committed charge change: the balance of
    the charged account and the list of usage records, which gets one
    more. *)
Lemma POST_touches_one_account env data d i o t nb s' :
  POST env data (idle d) = (Return (Outlet.Success i o t nb), s') ->
  exists (u : User) (b : Z),
    users d !! Outlet.user_id data = Some u
    /\ users (db s') !! Outlet.user_id data = Some (set_balance b u)
    /\ nb = Number b
    /\ (forall other : string,
          other <> Outlet.user_id data ->
          users (db s') !! other = users d !! other)
    /\ model_prices (db s') = model_prices d
    /\ system_settings (db s') = system_settings d
    /\ exists r : UsageRecord,
         user_usage_records (db s') = (user_usage_records d ++ [r])%list
         /\ balance_after r = nb
         /\ Pg.user_id r = Outlet.user_id data
         /\ model_name r = Outlet.model data
         /\ input_tokens r = i /\ output_tokens r = o
         /\ (Outlet.user_name data = None
             \/ Outlet.user_name data = Some EmptyString ->
             nickname r = "Unknown User").
Proof.
  intros Hrun.
  destruct (ChargeProperties.POST_success _ _ _ _ _ _ _ _ _ _ _ Hrun)
    as (p & lm & src & u & c & _ & _ & _ & _ & _ & Hu & Hnb & Hs').
  cbn zeta in *. exists u, (Z.min (balance u - c) MAX_BALANCE).
  split; [exact Hu |]. subst s'. cbn.
  split; [apply lookup_insert_eq |]. split; [exact Hnb |].
  split; [intros other Hne; rewrite lookup_insert_ne; congruence |].
  split; [reflexivity |]. split; [reflexivity |].
  eexists. split; [reflexivity |]. cbn.
  repeat (split; [reflexivity |]).
  unfold Outlet.userName. intros [-> | ->]; reflexivity.
Qed.

(** X16. A committed charge for a reply without output tokens costs 0
    and records 0, but it still moves the balance: the inlet credit,
    rounded to four decimals, is added to it, up to the maximum. *)
Theorem no_output_returns_the_inlet_credit env data d i t nb s' :
  POST env data (idle d) = (Return (Outlet.Success i 0 t nb), s') ->
  t = 0%Q
  /\ exists u : User,
       users d !! Outlet.user_id data = Some u
       /\ nb = Number (Z.min (balance u
                              + round4 (getModelInletCost (Outlet.model data)))
                         MAX_BALANCE)
       /\ balance <$> users (db s') !! Outlet.user_id data
          = Some (Z.min (balance u
                         + round4 (getModelInletCost (Outlet.model data)))
                    MAX_BALANCE).
Proof.
  intros Hrun.
  destruct (ChargeProperties.POST_success _ _ _ _ _ _ _ _ _ _ _ Hrun)
    as (p & lm & src & u & c & _ & _ & _ & Ht & Hcast & Hu & Hnb & Hs').
  cbn zeta in *.
  assert (t = 0%Q) as Hzero by (rewrite Ht; reflexivity).
  split; [exact Hzero |]. exists u. split; [exact Hu |].
  apply ChargeProperties.CAST_is_round4 in Hcast.
  rewrite Hzero, round4_opposite in Hcast.
  replace (balance u - c) with
    (balance u + round4 (getModelInletCost (Outlet.model data))) in * by lia.
  split; [exact Hnb |].
  subst s'. cbn. rewrite lookup_insert_eq. reflexivity.
Qed.

(** X17. A charge is committed whenever its steps pass: a price is
    resolved, there is a last message, the counts are obtained, the net
    cost fits the column, the user has a row, the new balance fits, and
    the store takes the usage record.  Nothing else is asked: the flag
    [deleted] of the account is not looked at, and the balance need not
    cover the cost, so a charge can leave the balance below 0. *)
Theorem charge_commits_when_every_step_passes
    env data d p lm i o src c u :
  let s0 := {| db := d; snapshot := Some d |} in
  let t := Outlet.totalCost p i o in
  let b := Z.min (balance u - c) MAX_BALANCE in
  let r := Outlet.usage_record data i o t (Number b) in
  Outlet.getModelPrice env (Outlet.model data) s0 = (Return (Some p), s0) ->
  last (Outlet.messages data) = Some lm ->
  countTokens (Outlet.messages data) lm s0 = (Return (i, o, src), s0) ->
  CAST_DECIMAL_16_4 (t - getModelInletCost (Outlet.model data)) = Some c ->
  users d !! Outlet.user_id data = Some u ->
  fits b = true ->
  accepts r = true ->
  POST env data (idle d)
  = (Return (Outlet.Success i o t (Number b)),
     idle (Outlet.charged data u b r d)).
Proof.
  cbn zeta. intros Hp Hlast Hcount Hcast Hu Hfits Hacc.
  unfold Outlet.POST, try_catch, Outlet.INSERT_usage_record,
    Users.UPDATE_balance_WHERE_id, Outlet.LEAST_decrement.
  ChargeProperties.run.
  rewrite Hp, Hlast, Hcount, Hcast. cbn [db]. rewrite Hu, Hfits.
  destruct (Qlt_le_dec max_balance (Number (Z.min (balance u - c) MAX_BALANCE)))
    as [Hover | _].
  { exfalso. apply (Qlt_not_le _ _ Hover), ChargeProperties.Number_le_max,
      Z.le_min_r. }
  fold (Outlet.usage_record data i o (Outlet.totalCost p i o)
          (Number (Z.min (balance u - c) MAX_BALANCE))).
  rewrite Hacc. reflexivity.
Qed.

End Collaborators.

(** In the exchange of a question of five characters and an empty reply
    whose usage reports 0 completion tokens, the input count is that of
    the question. *)
Lemma computed_counts_are_not_negative_witness :
  exists before : list Outlet.Message,
    Samples.empty_exchange = (before ++ [Samples.empty_reply])%list
    /\ Reference.exact_total Samples.char_tokens before = Some 5.
Proof.
  apply (computed_counts_are_not_negative Samples.char_tokens
           Samples.empty_exchange Samples.empty_reply
           (idle (Samples.tables 0)) (idle (Samples.tables 0))
           5 0 Outlet.TOKENIZER).
  - reflexivity.
  - discriminate.
  - vm_compute. reflexivity.
  - reflexivity.
Defined.

(** An empty reply on the model ["m"] with an inlet credit of 1: nothing
    is charged and the balance goes from 100 to 101. *)
Lemma no_output_returns_the_inlet_credit_witness :
  exists u : User,
    users (Samples.tables 1000000) !! "ann" = Some u
    /\ (1010000 # 10000)%Q
       = Number (Z.min (balance u + round4 (Samples.credit_of_one "m"))
                   MAX_BALANCE).
Proof.
  destruct (no_output_returns_the_inlet_credit
              Samples.char_tokens Samples.credit_of_one Samples.any_row
              ∅ (Samples.request "m" Samples.empty_exchange)
              (Samples.tables 1000000)
              5 0%Q (1010000 # 10000)%Q
              (Outlet.POST Samples.char_tokens Samples.credit_of_one
                 Samples.any_row ∅ (Samples.request "m" Samples.empty_exchange)
                 (idle (Samples.tables 1000000))).2)
    as (_ & u & Hu & Hnb & _).
  - vm_compute. reflexivity.
  - exists u. split; [exact Hu | exact Hnb].
Defined.

(** Ann is deleted and has 10; a reply at 12 per message is charged all
    the same and leaves her at -2. *)
Lemma charge_commits_when_every_step_passes_witness :
  (Outlet.POST Samples.char_tokens Samples.no_credit Samples.any_row ∅
     MoreSamples.dear_request (idle MoreSamples.shop)).1
  = Return (Outlet.Success 5 7 12 (Number (-20000))).
Proof.
  rewrite (charge_commits_when_every_step_passes
             Samples.char_tokens Samples.no_credit Samples.any_row
             ∅ MoreSamples.dear_request MoreSamples.shop
             MoreSamples.dear_price (Samples.reply "ok" (Some 5) (Some 7))
             5 7 Outlet.LLM_USAGE 120000
             (Views.marked_deleted (Samples.ann 100000)));
    vm_compute; reflexivity.
Defined.

End ChargeReach.

(* ===================================================================== *)
(** * Whole requests: the handler after [ensureRuntimeInitialized()] *)
(* ===================================================================== *)

Module RequestProperties.
Import Pg Scheduler.

(** [ensureRuntimeInitialized()] calls [checkAndReset()] exactly when
    neither the runtime nor the scheduler is initialised and the
    automatic reset is enabled. *)
Lemma ensureRuntimeInitialized_calls (env : Js.Env) (rt : Runtime.State) :
  (Runtime.ensureRuntimeInitialized env rt).1 = false <->
  Runtime.runtimeInitialized rt = true
  \/ isInitialized (Runtime.scheduler rt) = true
  \/ isAutoResetEnabled env = false.
Proof.
  unfold Runtime.ensureRuntimeInitialized, initScheduler.
  destruct (Runtime.runtimeInitialized rt); [cbn; tauto |].
  destruct (isInitialized (Runtime.scheduler rt)); [cbn; tauto |].
  destruct (isAutoResetEnabled env); cbn; [| tauto].
  split; [discriminate |]. intros [H | [H | H]]; discriminate H.
Qed.

(** A call that does not call [checkAndReset()] leaves the scheduler as
    it is. *)
Lemma ensureRuntimeInitialized_quiet (env : Js.Env) (rt : Runtime.State) :
  (Runtime.ensureRuntimeInitialized env rt).1 = false ->
  Runtime.scheduler (Runtime.ensureRuntimeInitialized env rt).2
  = Runtime.scheduler rt.
Proof.
  unfold Runtime.ensureRuntimeInitialized, initScheduler.
  destruct (Runtime.runtimeInitialized rt); [reflexivity |].
  destruct (isInitialized (Runtime.scheduler rt)); [reflexivity |].
  destruct (isAutoResetEnabled env); cbn; [discriminate | reflexivity].
Qed.

(** After a call the runtime is initialised. *)
Lemma ensureRuntimeInitialized_sets (env : Js.Env) (rt : Runtime.State) :
  Runtime.runtimeInitialized (Runtime.ensureRuntimeInitialized env rt).2
  = true.
Proof.
  unfold Runtime.ensureRuntimeInitialized.
  destruct (Runtime.runtimeInitialized rt) eqn:H; [exact H |].
  destruct (initScheduler env (Runtime.scheduler rt)). reflexivity.
Qed.

Lemma reset_balances_GET_parts env now rt :
  Routes.tick (Routes.reset_balances_GET env now rt)
  = (Runtime.ensureRuntimeInitialized env rt).1
  /\ Routes.runtime (Routes.reset_balances_GET env now rt)
     = (Runtime.ensureRuntimeInitialized env rt).2
  /\ Routes.handler (Routes.reset_balances_GET env now rt)
     = ResetBalances.GET env now
         (Runtime.scheduler (Runtime.ensureRuntimeInitialized env rt).2).
Proof.
  unfold Routes.reset_balances_GET.
  destruct (Runtime.ensureRuntimeInitialized env rt). repeat split.
Qed.

Lemma reset_balances_POST_parts env now body rt :
  Routes.tick (Routes.reset_balances_POST env now body rt)
  = (Runtime.ensureRuntimeInitialized env rt).1
  /\ Routes.handler (Routes.reset_balances_POST env now body rt)
     = ResetBalances.POST env now body.
Proof.
  unfold Routes.reset_balances_POST.
  destruct (Runtime.ensureRuntimeInitialized env rt). repeat split.
Qed.

(** X8. A status request that does not set off the scheduler's first
    check changes nothing in the store and does not fail; it sets off no
    check exactly when the runtime or the scheduler is initialised
    already, or the automatic reset is disabled.  Such a request reports
    the last reset on record and whether the scheduler is running, and
    its [should_reset_today] is true exactly when a POST without user and
    without [force] that follows it at the same instant, which sets off
    no check either, would reset the accounts. *)
Theorem status_request_without_check_only_reads
    (env : Js.Env) (now : Js.Date) (rt : Runtime.State) (s : Session) :
  let request := Routes.reset_balances_GET env now rt in
  let again :=
    Routes.reset_balances_POST env now
      {| ResetBalances.userId := None; ResetBalances.force := false |}
      (Routes.runtime request) in
  (Routes.tick request = false <->
   Runtime.runtimeInitialized rt = true
   \/ isInitialized (Runtime.scheduler rt) = true
   \/ isAutoResetEnabled env = false)
  /\ Routes.tick again = false
  /\ (Routes.tick request = false ->
      exists should_reset_today : bool,
        Routes.handler request s
        = (Return (ResetBalances.ResetStatus (getConfiguredResetDay env)
                     (getEffectiveResetDay env now) (last_reset s)
                     should_reset_today
                     (getSchedulerStatus env now (Runtime.scheduler rt))), s)
        /\ isRunning (getSchedulerStatus env now (Runtime.scheduler rt))
           = isInitialized (Runtime.scheduler rt)
        /\ (should_reset_today = true <->
            exists (n : nat) (s1 : Session),
              Routes.handler again s
              = (Return (ResetBalances.BalancesReset n), s1))).
Proof.
  cbn zeta.
  destruct (reset_balances_GET_parts env now rt) as (Htick & Hrt & Hhandler).
  rewrite Htick, Hrt, Hhandler.
  destruct (reset_balances_POST_parts env now
              {| ResetBalances.userId := None; ResetBalances.force := false |}
              (Runtime.ensureRuntimeInitialized env rt).2)
    as (Htick' & Hhandler').
  rewrite Htick', Hhandler'.
  split; [apply ensureRuntimeInitialized_calls |]. split.
  - apply ensureRuntimeInitialized_calls. left.
    apply ensureRuntimeInitialized_sets.
  - intros Hquiet. rewrite (ensureRuntimeInitialized_quiet env rt Hquiet).
    apply TickProperties.GET_only_reads.
Qed.

Section Collaborators.

Variable encode : string -> option (list Z).
Variable getModelInletCost : string -> Q.
Variable accepts : UsageRecord -> bool.

Lemma outlet_POST_parts env data rt :
  Routes.tick (Routes.outlet_POST encode getModelInletCost accepts env data rt)
  = (Runtime.ensureRuntimeInitialized env rt).1
  /\ Routes.handler
       (Routes.outlet_POST encode getModelInletCost accepts env data rt)
     = Outlet.POST encode getModelInletCost accepts env data.
Proof.
  unfold Routes.outlet_POST.
  destruct (Runtime.ensureRuntimeInitialized env rt). repeat split.
Qed.

(** X15. A charge request that does not set off the scheduler's first
    check (the runtime or the scheduler is initialised already, or the
    automatic reset is disabled) and commits changes the balance of the
    charged account and nothing else in it, changes no other account, no
    price and no setting.  The balance after the
    charge is said three times and the three agree: in the answer, in
    the usage record, and in the account.  The usage record carries the
    user, the model, the counts of the answer, and "Unknown User" as
    nickname when the request gives no name. *)
Theorem charge_without_check_touches_one_account
    (env : Js.Env) (data : Outlet.Data) (rt : Runtime.State) (d : DB)
    (i o : Z) (t nb : Q) (s' : Session) :
  let request :=
    Routes.outlet_POST encode getModelInletCost accepts env data rt in
  Routes.tick request = false ->
  Routes.handler request (idle d) = (Return (Outlet.Success i o t nb), s') ->
  (Runtime.runtimeInitialized rt = true
   \/ isInitialized (Runtime.scheduler rt) = true
   \/ isAutoResetEnabled env = false)
  /\ exists (u : User) (b : Z),
       users d !! Outlet.user_id data = Some u
       /\ users (db s') !! Outlet.user_id data = Some (set_balance b u)
       /\ nb = Number b
       /\ (forall other : string,
             other <> Outlet.user_id data ->
             users (db s') !! other = users d !! other)
       /\ model_prices (db s') = model_prices d
       /\ system_settings (db s') = system_settings d
       /\ exists r : UsageRecord,
            user_usage_records (db s') = (user_usage_records d ++ [r])%list
            /\ balance_after r = nb
            /\ Pg.user_id r = Outlet.user_id data
            /\ model_name r = Outlet.model data
            /\ input_tokens r = i /\ output_tokens r = o
            /\ (Outlet.user_name data = None
                \/ Outlet.user_name data = Some EmptyString ->
                nickname r = "Unknown User").
Proof.
  cbn zeta.
  destruct (outlet_POST_parts env data rt) as (Htick & Hhandler).
  rewrite Htick, Hhandler. intros Hquiet Hrun.
  split; [apply ensureRuntimeInitialized_calls; exact Hquiet |].
  exact (ChargeReach.POST_touches_one_account _ _ _ _ _ _ _ _ _ _ _ Hrun).
Qed.

End Collaborators.

(** A process that has served a request, on the first of March 2025 with
    the last reset on record in February: the status request reads that
    a reset is due and changes nothing. *)
Lemma status_request_without_check_only_reads_witness :
  let request :=
    Routes.reset_balances_GET ∅ (Js.mkDate 2025 2 1) (Routes.served ∅) in
  Routes.tick request = false
  /\ (Routes.handler request
        (idle (Samples.reset_on (Js.mkDate 2025 1 1)
                 (Samples.tables 1000000)))).2
     = idle (Samples.reset_on (Js.mkDate 2025 1 1) (Samples.tables 1000000)).
Proof.
  cbn zeta.
  destruct (status_request_without_check_only_reads
              ∅ (Js.mkDate 2025 2 1) (Routes.served ∅)
              (idle (Samples.reset_on (Js.mkDate 2025 1 1)
                       (Samples.tables 1000000))))
    as (Hquiet & _ & Hreads).
  assert (Htick :
            Routes.tick
              (Routes.reset_balances_GET ∅ (Js.mkDate 2025 2 1)
                 (Routes.served ∅)) = false).
  { apply Hquiet. left. reflexivity. }
  split; [exact Htick |].
  destruct (Hreads Htick) as (b & Hrun & _). rewrite Hrun. reflexivity.
Defined.

(** A process that has served a request: Ann is charged; Bob's row is as
    it was. *)
Lemma charge_without_check_touches_one_account_witness :
  users (db (Routes.handler
               (Routes.outlet_POST Samples.char_tokens Samples.no_credit
                  Samples.any_row ∅ Samples.priced_request (Routes.served ∅))
               (idle (Samples.tables 1000000))).2)
    !! "bob"
  = Some Samples.bob.
Proof.
  destruct (charge_without_check_touches_one_account
              Samples.char_tokens Samples.no_credit Samples.any_row
              ∅ Samples.priced_request (Routes.served ∅)
              (Samples.tables 1000000)
              1000 500 (5000000000 # 1000000000000)%Q (999950 # 10000)%Q
              (Routes.handler
                 (Routes.outlet_POST Samples.char_tokens Samples.no_credit
                    Samples.any_row ∅ Samples.priced_request
                    (Routes.served ∅))
                 (idle (Samples.tables 1000000))).2)
    as (_ & u & b & _ & _ & _ & Hothers & _).
  - reflexivity.
  - vm_compute. reflexivity.
  - rewrite Hothers by discriminate. reflexivity.
Defined.

End RequestProperties.
